(** * CTU dataset metadata harvester (lim/ctu13.py): model and properties

    A shallow embedding of the class [CTU_Dataset] of [lim/ctu13.py]:
    scenario discovery, the scenario page scan, the cache file and the
    query facade, with the properties of the harvester proved (or refuted)
    on the embedding.

    Conventions.
    - A Python [str] is a Rocq [string]; case conversion and white space
      are those of ASCII text.
    - A Python [dict] or [OrderedDict] is an association list with unique
      keys kept in insertion order ([pydict]).
    - A raised exception is the [Raise] case of [result]; a method that
      mutates [self] and may raise returns the new state together with its
      [result], since Python keeps the mutations made before the raise.
    - Times ([time.time()], [st_mtime], the cache timeout) are seconds
      in [Z].
    - The object is typed: its store holds records of strings, booleans
      and [None], its columns are strings. Where the code would put
      another value there (a cache file of another shape), the model gives
      no state: [None] of [option].
    - The libraries the module calls (bs4, aiohttp, requests, json) are
      parameters: Section variables, instantiated where a closed example
      needs them; [Module Json] gives [json] a model of its own. *)

From Stdlib Require Import String Ascii List Bool ZArith Lia Arith.
Import ListNotations.
Open Scope string_scope.

(** ** Python values, exceptions *)

Inductive pyval : Type :=
| VNone
| VBool (b : bool)
| VStr (s : string).

Definition pyval_eqb (a b : pyval) : bool :=
  match a, b with
  | VNone, VNone => true
  | VBool x, VBool y => Bool.eqb x y
  | VStr x, VStr y => String.eqb x y
  | _, _ => false
  end.

(** Python truthiness: [not v] is [negb (truthy v)]. *)
Definition truthy (v : pyval) : bool :=
  match v with
  | VNone => false
  | VBool b => b
  | VStr s => negb (String.eqb s "")
  end.

Inductive exn : Type :=
| RuntimeError (msg : string)
| KeyError (key : string)
| ValueError
| IndexError
| TypeError
| AttributeError
| FileNotFoundError
| FetchError.

Inductive result (A : Type) : Type :=
| Ok (a : A)
| Raise (e : exn).
Arguments Ok {A} a.
Arguments Raise {A} e.

Definition bind {A B} (r : result A) (k : A -> result B) : result B :=
  match r with
  | Ok a => k a
  | Raise e => Raise e
  end.

(** ** Python [str] methods *)

Module Str.

(** [s.startswith(p)] *)
Definition startswith (p s : string) : bool := String.prefix p s.

(** [sub in s] *)
Fixpoint contains (sub s : string) : bool :=
  String.prefix sub s ||
  match s with
  | EmptyString => false
  | String _ s' => contains sub s'
  end.

(** [s.endswith(suf)] *)
Fixpoint endswith (suf s : string) : bool :=
  String.eqb suf s ||
  match s with
  | EmptyString => false
  | String _ s' => endswith suf s'
  end.

(** [s.split(c)] for a separator of one character. *)
Fixpoint split (c : ascii) (s : string) : list string :=
  match s with
  | EmptyString => [EmptyString]
  | String a s' =>
      if Ascii.eqb a c then EmptyString :: split c s'
      else match split c s' with
           | [] => [String a EmptyString]
           | h :: t => String a h :: t
           end
  end.

Definition upper_char (a : ascii) : ascii :=
  let n := nat_of_ascii a in
  if ((97 <=? n) && (n <=? 122))%nat then ascii_of_nat (n - 32)%nat else a.

Definition lower_char (a : ascii) : ascii :=
  let n := nat_of_ascii a in
  if ((65 <=? n) && (n <=? 90))%nat then ascii_of_nat (n + 32)%nat else a.

Fixpoint map (f : ascii -> ascii) (s : string) : string :=
  match s with
  | EmptyString => EmptyString
  | String a s' => String (f a) (map f s')
  end.

(** [s.upper()], [s.lower()] *)
Definition upper : string -> string := map upper_char.
Definition lower : string -> string := map lower_char.

(** [s.replace(a, b)] for single characters. *)
Definition replace (a b : ascii) : string -> string :=
  map (fun c => if Ascii.eqb c a then b else c).

(** White space of [str.isspace] in ASCII: TAB, LF, VT, FF, CR, FS, GS,
    RS, US and the space. *)
Definition is_space (a : ascii) : bool :=
  let n := nat_of_ascii a in
  (((9 <=? n) && (n <=? 13)) || ((28 <=? n) && (n <=? 32)))%nat.

Fixpoint lstrip (s : string) : string :=
  match s with
  | EmptyString => EmptyString
  | String a s' => if is_space a then lstrip s' else s
  end.

Fixpoint rstrip (s : string) : string :=
  match s with
  | EmptyString => EmptyString
  | String a s' =>
      let r := rstrip s' in
      if is_space a && String.eqb r "" then EmptyString else String a r
  end.

(** [s.strip()] *)
Definition strip (s : string) : string := rstrip (lstrip s).

(** Line boundaries of [str.splitlines] in ASCII: LF, VT, FF, CR, FS,
    GS, RS; CR LF counts once. *)
Definition is_linebreak (a : ascii) : bool :=
  let n := nat_of_ascii a in
  (((10 <=? n) && (n <=? 13)) || ((28 <=? n) && (n <=? 30)))%nat.

(** [s.splitlines()] *)
Fixpoint splitlines (s : string) : list string :=
  match s with
  | EmptyString => []
  | String a s' =>
      if is_linebreak a then
        EmptyString ::
          (if Ascii.eqb a "013" then
             match s' with
             | String b s'' =>
                 if Ascii.eqb b "010" then splitlines s'' else splitlines s'
             | EmptyString => splitlines s'
             end
           else splitlines s')
      else match splitlines s' with
           | [] => [String a EmptyString]
           | h :: t => String a h :: t
           end
  end.

(** [sep.join(l)] *)
Fixpoint join (sep : string) (l : list string) : string :=
  match l with
  | [] => ""
  | [x] => x
  | x :: rest => x ++ sep ++ join sep rest
  end.

(** [s[1:]] *)
Definition drop1 (s : string) : string :=
  match s with
  | EmptyString => EmptyString
  | String _ s' => s'
  end.

End Str.

(** [x in l] for a list of strings. *)
Definition str_in (x : string) (l : list string) : bool :=
  existsb (String.eqb x) l.

(** [os.path.splitext(p)[-1]]: the extension of the last path component,
    from its last dot on, provided a character other than a dot comes
    before that dot in the component; the empty string otherwise. *)
Definition splitext_ext (p : string) : string :=
  let base := last (Str.split "/" p) "" in
  let parts := Str.split "." base in
  match rev parts with
  | ext :: (_ :: _) as stem_rev =>
      if existsb (fun x => negb (String.eqb x "")) stem_rev
      then "." ++ ext else ""
  | _ => ""
  end.

(** ** Python dictionaries *)

Definition pydict (V : Type) : Type := list (string * V).

Section Dict.
Context {V : Type}.

(** [d.get(k)] *)
Fixpoint dict_get (k : string) (d : pydict V) : option V :=
  match d with
  | [] => None
  | (k', v) :: d' => if String.eqb k k' then Some v else dict_get k d'
  end.

(** [k in d] *)
Definition dict_contains (k : string) (d : pydict V) : bool :=
  match dict_get k d with Some _ => true | None => false end.

(** [d[k] = v]: an existing key keeps its position, a new one goes last. *)
Fixpoint dict_set (k : string) (v : V) (d : pydict V) : pydict V :=
  match d with
  | [] => [(k, v)]
  | (k', v') :: d' =>
      if String.eqb k k' then (k, v) :: d' else (k', v') :: dict_set k v d'
  end.

(** [d[k]] *)
Definition dict_getitem (k : string) (d : pydict V) : result V :=
  match dict_get k d with
  | Some v => Ok v
  | None => Raise (KeyError k)
  end.

Definition dict_keys (d : pydict V) : list string := List.map fst d.
End Dict.

(** ** bs4: what the module reads of a parsed page

    The module uses only [soup.text] (the visible text), [findAll('a')]
    (the elements of a given name, in document order) and [item['href']]
    (an attribute, [KeyError] when the element has none of that name). *)

Record Tag : Type := { tag_name : string; tag_attrs : pydict string }.
Record Soup : Type := { soup_text : string; soup_tags : list Tag }.

Definition findAll (name : string) (soup : Soup) : list Tag :=
  filter (fun t => String.eqb (tag_name t) name) (soup_tags soup).

Definition tag_getitem (item : Tag) (k : string) : result string :=
  dict_getitem k (tag_attrs item).

(** ** Module constants *)

Definition __ASYNC_TIMEOUT__ : Z := 10.
Definition __SEMAPHORE_LIMIT__ : nat := 10.
Definition __DATASETS_URLS__ : pydict string :=
  [ ("ctu13", "https://www.stratosphereips.org/datasets-ctu13");
    ("mixed", "https://www.stratosphereips.org/datasets-mixed");
    ("normal", "https://www.stratosphereips.org/datasets-normal");
    ("malware", "https://www.stratosphereips.org/datasets-malware") ].
Definition __GROUPS__ : list string := dict_keys __DATASETS_URLS__.
Definition __NETFLOW_DATA_DIR__ : string :=
  "detailed-bidirectional-flow-labels/".
Definition __CACHE_TIMEOUT__ : Z := 60 * 60 * 24 * 7.
Definition __COLUMNS__ : list string :=
  [ "SCENARIO"; "GROUP"; "SCENARIO_URL"; "PROBABLE_NAME"; "ZIP"; "MD5";
    "SHA1"; "SHA256"; "LABELED"; "BINETFLOW"; "PCAP" ].

(** ** The object *)

(** One scenario's dictionary, and the store [self.scenarios]. *)
Definition record : Type := pydict pyval.
Definition store : Type := pydict record.

Record CTU_Dataset : Type := {
  groups : list string;
  columns : list string;
  cache_timeout : Z;
  semaphore_limit : nat;
  ignore_cache : bool;
  scenarios : store
}.

Definition set_scenarios (self : CTU_Dataset) (s : store) : CTU_Dataset :=
  {| groups := groups self; columns := columns self;
     cache_timeout := cache_timeout self;
     semaphore_limit := semaphore_limit self;
     ignore_cache := ignore_cache self; scenarios := s |}.

Definition set_columns (self : CTU_Dataset) (c : list string) : CTU_Dataset :=
  {| groups := groups self; columns := c;
     cache_timeout := cache_timeout self;
     semaphore_limit := semaphore_limit self;
     ignore_cache := ignore_cache self; scenarios := scenarios self |}.

Definition dquote : string := String "034" "".

(** The message of the [RuntimeError] of [__init__]. *)
Definition unknown_group (g : string) : exn :=
  RuntimeError ("Dataset group " ++ dquote ++ g ++ dquote ++ " " ++
                "not found in [" ++ Str.join "," __GROUPS__ ++ "]").

(** [for g in groups: if g not in __GROUPS__: raise RuntimeError(...)] *)
Fixpoint validate_groups (gs : list string) : result unit :=
  match gs with
  | [] => Ok tt
  | g :: rest =>
      if negb (str_in g __GROUPS__) then Raise (unknown_group g)
      else validate_groups rest
  end.

(** [CTU_Dataset.__init__]; [asyncio.Semaphore(value)] raises
    [ValueError] for a negative value, after the groups are checked; the
    object built holds the limit as a natural number. *)
Definition __init__ (groups_arg columns_arg : list string)
    (cache_timeout_arg : Z) (semaphore_limit_arg : Z)
    (ignore_cache_arg : bool) : result CTU_Dataset :=
  bind (validate_groups groups_arg) (fun _ =>
    if (semaphore_limit_arg <? 0)%Z then Raise ValueError
    else
      Ok {| groups := if str_in "all" groups_arg then __GROUPS__
                      else groups_arg;
            columns := columns_arg;
            cache_timeout := cache_timeout_arg;
            semaphore_limit := Z.to_nat semaphore_limit_arg;
            ignore_cache := ignore_cache_arg;
            scenarios := [] |}).

(** ** Mutation of one scenario's dictionary, with exceptions *)

Definition M (A : Type) : Type := record -> record * result A.

Definition ret {A} (a : A) : M A := fun r => (r, Ok a).
Definition lift {A} (x : result A) : M A := fun r => (r, x).
Definition mbind {A B} (m : M A) (k : A -> M B) : M B :=
  fun r =>
    match m r with
    | (r', Ok a) => k a r'
    | (r', Raise e) => (r', Raise e)
    end.
Definition setitem (k : string) (v : pyval) : M unit :=
  fun r => (dict_set k v r, Ok tt).

Declare Scope py_scope.
Delimit Scope py_scope with py.
Notation "x <- m ;; k" := (mbind m (fun x => k))
  (at level 61, m at next level, right associativity) : py_scope.
Notation "m ;; k" := (mbind m (fun _ => k))
  (at level 61, right associativity) : py_scope.
Open Scope py_scope.

(** [for x in l: body(x)], stopped by the first exception. *)
Fixpoint for_each {X} (body : X -> M unit) (l : list X) : M unit :=
  match l with
  | [] => ret tt
  | x :: rest => body x ;; for_each body rest
  end.

(** ** Scenario discovery and the scenario page scan *)

Definition page_val (page : option string) : pyval :=
  match page with
  | None => VNone
  | Some s => VStr s
  end.

(** [page not in ["", None] and "Not Found" not in page] *)
Definition page_success (page : option string) : bool :=
  match page with
  | None => false
  | Some s => negb (String.eqb s "") && negb (Str.contains "Not Found" s)
  end.

(** [l.index(x)], [ValueError] when [x] is not in [l]. *)
Fixpoint list_index (x : string) (l : list string) : result nat :=
  match l with
  | [] => Raise ValueError
  | y :: rest =>
      if String.eqb y x then Ok 0%nat
      else bind (list_index x rest) (fun i => Ok (S i))
  end.

(** [l[i]] for [i >= 0] *)
Definition list_getitem (l : list string) (i : nat) : result string :=
  match nth_error l i with
  | Some x => Ok x
  | None => Raise IndexError
  end.

(** The body of the [try] of the label scan: the unpacking of the split
    raises [ValueError] unless it has two parts, and every exception is
    passed over. *)
Definition scan_label (columns : list string) (line : string) : M unit :=
  match Str.split ":" line with
  | [_k; _v] =>
      let k := Str.replace " " "_" (Str.upper _k) in
      let v := Str.strip _v in
      if str_in k columns then setitem k (VStr v) else ret tt
  | _ => ret tt
  end.

(** The anchors of the netflow listing: the first href ending in
    [.binetflow] is recorded and ends the loop. *)
Fixpoint scan_subpage (items : list Tag) : M unit :=
  match items with
  | [] => ret tt
  | item :: rest =>
      href <- lift (tag_getitem item "href") ;;
      if Str.endswith ".binetflow" href
      then setitem "BINETFLOW" (VStr (__NETFLOW_DATA_DIR__ ++ href))
      else scan_subpage rest
  end.

(** One anchor of the scenario page. *)
Definition scan_anchor (columns : list string) (item : Tag) : M unit :=
  let href := match tag_getitem item "href" with
              | Ok h => h
              | Raise _ => ""
              end in
  if Str.startswith "?" href then ret tt
  else
    let href_ext := Str.upper (Str.drop1 (splitext_ext href)) in
    if String.eqb href_ext "" then ret tt
    else if str_in href_ext columns then setitem href_ext (VStr href)
    else ret tt.

(** The loop of [get_scenarios] over the anchors of the landing page. *)
Definition scan_landing (items : list Tag) : list string :=
  fold_left
    (fun scenarios item =>
       let href := match tag_getitem item "href" with
                   | Ok h => h
                   | Raise _ => ""
                   end in
       if Str.startswith "?" href then scenarios
       else if Str.contains "/publicDatasets/" href && Str.endswith "/" href
            then (scenarios ++ [href])%list
            else scenarios)
    items [].

Section Harvest.

(** [BeautifulSoup(markup, 'html.parser')] *)
Variable BeautifulSoup : option string -> result Soup.
(** [session.get(url)] followed by [response.text()] (aiohttp): the text
    of the page, or [None], which the success test of
    [record_scenario_metadata] provides for; [Raise] for a timeout or a
    transport error. *)
Variable session_get : string -> result (option string).
(** [requests.get(url, verify=False).text] *)
Variable requests_get : string -> result string.

(** [CTU_Dataset.fetch] *)
Definition fetch (url : string) : result (option string) := session_get url.

(** [CTU_Dataset.fetch_scenario]; the semaphore it holds around the
    fetch is the subject of [Module Gate]. *)
Definition fetch_scenario (url : string) : result (option string) :=
  fetch url.

(** One line of the visible text. *)
Definition scan_line (self : CTU_Dataset) (url line : string) : M unit :=
  (if Str.contains __NETFLOW_DATA_DIR__ line then
     subpage <- lift (fetch (url ++ __NETFLOW_DATA_DIR__)) ;;
     subsoup <- lift (BeautifulSoup subpage) ;;
     scan_subpage (findAll "a" subsoup)
   else ret tt) ;;
  if Str.contains ":" line && negb (String.eqb line ":")
  then scan_label (columns self) line
  else ret tt.

(** [record_scenario_metadata] from the assignment of GROUP on, acting
    on the dictionary [_scenario]. *)
Definition scrape (self : CTU_Dataset) (group url : string) : M unit :=
  setitem "GROUP" (VStr group) ;;
  setitem "URL" (VStr url) ;;
  page <- lift (fetch_scenario url) ;;
  setitem "_PAGE" (page_val page) ;;
  setitem "_SUCCESS" (VBool (page_success page)) ;;
  soup <- lift (BeautifulSoup page) ;;
  for_each (scan_line self url) (Str.splitlines (soup_text soup)) ;;
  for_each (scan_anchor (columns self)) (findAll "a" soup).

(** The scenario name: [url_parts[url_parts.index('publicDatasets')+1]] *)
Definition scenario_name (url : string) : result string :=
  let url_parts := Str.split "/" url in
  bind (list_index "publicDatasets" url_parts) (fun i =>
    list_getitem url_parts (i + 1)).

(** [CTU_Dataset.record_scenario_metadata] *)
Definition record_scenario_metadata (self : CTU_Dataset) (group : string)
    (url : option string) : CTU_Dataset * result unit :=
  match url with
  | None => (self, Raise (RuntimeError "url must not be None"))
  | Some url =>
      match scenario_name url with
      | Raise e => (self, Raise e)
      | Ok name =>
          let _scenario :=
            match dict_get name (scenarios self) with
            | Some r => r
            | None => []
            end in
          let (r, res) := scrape self group url _scenario in
          (set_scenarios self (dict_set name r (scenarios self)), res)
      end
  end.

(** [CTU_Dataset.get_scenarios] *)
Definition get_scenarios (group url : string) : result (list string) :=
  bind (requests_get url) (fun text =>
    bind (BeautifulSoup (Some text)) (fun soup =>
      Ok (scan_landing (findAll "a" soup)))).

End Harvest.

(** The parse of a page without markup: its text is the page and it has
    no element; [None] is not markup. *)
Definition text_only (markup : option string) : result Soup :=
  match markup with
  | None => Raise TypeError
  | Some s => Ok {| soup_text := s; soup_tags := [] |}
  end.

(** ** The query facade *)

Definition opt_val (o : option pyval) : pyval :=
  match o with
  | Some v => v
  | None => VNone
  end.

(** [v in l] for a list of strings [l] *)
Definition pyval_in (v : pyval) (l : list string) : bool :=
  match v with
  | VStr s => str_in s l
  | _ => false
  end.

(** The four tests of the loop of [get_metadata]; [true] stands for
    [continue]. *)
Definition skip_failed (attributes : record) : bool :=
  match dict_get "_SUCCESS" attributes with
  | Some v => negb (truthy v)
  | None => false
  end.

Definition skip_group (groups_arg : option (list string))
    (attributes : record) : result bool :=
  match dict_get "GROUP" attributes with
  | None => Ok false
  | Some g =>
      match groups_arg with
      | None => Raise TypeError
      | Some gs => Ok (negb (pyval_in g gs))
      end
  end.

Definition skip_name (name_includes : option string)
    (attributes : record) : result bool :=
  match name_includes with
  | None => Ok false
  | Some n =>
      match dict_get "PROBABLE_NAME" attributes with
      | None => Ok true
      | Some (VStr p) =>
          Ok (negb (Str.contains (Str.lower n) (Str.lower p)))
      | Some _ => Raise AttributeError
      end
  end.

(** [or] evaluates an operand only when those before it are false, so a
    subscript is reached only then. *)
Definition skip_hash (has_hash : option string)
    (attributes : record) : result bool :=
  match has_hash with
  | None => Ok false
  | Some h =>
      bind (dict_getitem "MD5" attributes) (fun md5 =>
        if pyval_eqb (VStr h) md5 then Ok false
        else
          bind (dict_getitem "SHA1" attributes) (fun sha1 =>
            if pyval_eqb (VStr h) sha1 then Ok false
            else
              bind (dict_getitem "SHA256" attributes) (fun sha256 =>
                Ok (negb (pyval_eqb (VStr h) sha256)))))
  end.

(** [for c in self.columns: if c not in row: row[c] = attributes.get(c)] *)
Definition fill_row (cols : list string) (attributes : record)
    (row : record) : record :=
  fold_left
    (fun row c =>
       if dict_contains c row then row
       else dict_set c (opt_val (dict_get c attributes)) row)
    cols row.

(** [[row.get(c) for c in self.columns]] *)
Definition project (cols : list string) (row : record) : list pyval :=
  map (fun c => opt_val (dict_get c row)) cols.

(** One turn of the loop: [None] when the record is skipped. *)
Definition visit (self : CTU_Dataset) (groups_arg : option (list string))
    (name_includes has_hash : option string)
    (scenario : string) (attributes : record)
    : result (option (list pyval)) :=
  if skip_failed attributes then Ok None
  else
    bind (skip_group groups_arg attributes) (fun skip =>
      if skip : bool then Ok None
      else
        bind (skip_name name_includes attributes) (fun skip =>
          if skip : bool then Ok None
          else
            bind (dict_getitem "URL" attributes) (fun url =>
              let row := dict_set "SCENARIO_URL" url
                           (dict_set "SCENARIO" (VStr scenario) []) in
              bind (skip_hash has_hash attributes) (fun skip =>
                if skip : bool then Ok None
                else Ok (Some (project (columns self)
                                 (fill_row (columns self) attributes row))))))).

Fixpoint get_metadata_loop (self : CTU_Dataset)
    (groups_arg : option (list string)) (name_includes has_hash : option string)
    (items : store) (data : list (list pyval)) : result (list (list pyval)) :=
  match items with
  | [] => Ok data
  | (scenario, attributes) :: rest =>
      bind (visit self groups_arg name_includes has_hash scenario attributes)
        (fun o =>
           get_metadata_loop self groups_arg name_includes has_hash rest
             match o with
             | Some row => (data ++ [row])%list
             | None => data
             end)
  end.

(** [CTU_Dataset.get_metadata] *)
Definition get_metadata (self : CTU_Dataset)
    (groups_arg : option (list string)) (name_includes has_hash : option string)
    : result (list (list pyval)) :=
  get_metadata_loop self groups_arg name_includes has_hash (scenarios self) [].

(** ** The cache file *)

(** The values [json.dump] writes for a store: the store holds strings,
    booleans and [None], in dictionaries and lists. *)
#[warnings="-register-all"]
Inductive json : Type :=
| JNull
| JBool (b : bool)
| JStr (s : string)
| JArr (items : list json)
| JObj (members : list (string * json)).

Definition json_of_pyval (v : pyval) : json :=
  match v with
  | VNone => JNull
  | VBool b => JBool b
  | VStr s => JStr s
  end.

Definition json_of_record (r : record) : json :=
  JObj (map (fun kv => (fst kv, json_of_pyval (snd kv))) r).

Definition json_of_store (s : store) : json :=
  JObj (map (fun kv => (fst kv, json_of_record (snd kv))) s).

Definition json_of_columns (c : list string) : json := JArr (map JStr c).

(** The typed reading of a loaded value; a value of another shape than
    [write_cache] gives has no counterpart in the typed object. *)
Definition pyval_of_json (j : json) : option pyval :=
  match j with
  | JNull => Some VNone
  | JBool b => Some (VBool b)
  | JStr s => Some (VStr s)
  | _ => None
  end.

Fixpoint option_all {A} (l : list (option A)) : option (list A) :=
  match l with
  | [] => Some []
  | Some a :: rest =>
      match option_all rest with
      | Some r => Some (a :: r)
      | None => None
      end
  | None :: _ => None
  end.

Definition members_of {A} (f : json -> option A) (j : json)
    : option (pydict A) :=
  match j with
  | JObj members =>
      option_all
        (map (fun kv => match f (snd kv) with
                        | Some a => Some (fst kv, a)
                        | None => None
                        end) members)
  | _ => None
  end.

Definition record_of_json : json -> option record := members_of pyval_of_json.
Definition store_of_json : json -> option store := members_of record_of_json.

Definition columns_of_json (j : json) : option (list string) :=
  match j with
  | JArr items =>
      option_all (map (fun x => match x with
                                | JStr s => Some s
                                | _ => None
                                end) items)
  | _ => None
  end.

(** The file at [self.cache_file]: its content and its modification time,
    in seconds. *)
Record file : Type := { st_content : string; st_mtime : Z }.
Definition st_size (f : file) : nat := String.length (st_content f).

(** The file system as far as the cache goes: the file, when it exists. *)
Definition filesystem : Type := option file.

(** [os.stat(self.cache_file)] *)
Definition os_stat (fs : filesystem) : result file :=
  match fs with
  | Some f => Ok f
  | None => Raise FileNotFoundError
  end.

(** [CTU_Dataset.delete_cache] *)
Definition delete_cache (fs : filesystem) : filesystem * result bool :=
  match fs with
  | Some _ => (None, Ok true)
  | None => (fs, Raise FileNotFoundError)
  end.

(** [CTU_Dataset.cache_expired]; [cache_timeout_arg] is the keyword
    argument, [None] when the caller leaves it out, and [now] is
    [time.time()]. *)
Definition cache_expired (self : CTU_Dataset) (fs : filesystem) (now : Z)
    (cache_timeout_arg : option Z) : filesystem * bool :=
  let cache_timeout := match cache_timeout_arg with
                       | Some t => t
                       | None => __CACHE_TIMEOUT__
                       end in
  match os_stat fs with
  | Raise _ => (fs, true)
  | Ok stat_results =>
      let fs1 := if Nat.eqb (st_size stat_results) 0
                 then fst (delete_cache fs) else fs in
      let age := (now - st_mtime stat_results)%Z in
      (fs1, if (age <=? cache_timeout)%Z then false else true)
  end.

Section Cache.

(** [json.dumps] and [json.loads] *)
Variable json_dumps : json -> string.
Variable json_loads : string -> result json.

(** [CTU_Dataset.write_cache], at time [now] *)
Definition write_cache (self : CTU_Dataset) (fs : filesystem) (now : Z)
    : filesystem * result bool :=
  let _cache := JObj [ ("scenarios", json_of_store (scenarios self));
                       ("columns", json_of_columns (columns self)) ] in
  (Some {| st_content := json_dumps _cache; st_mtime := now |}, Ok true).

(** [_cache[k]] on a loaded value *)
Definition json_getitem (j : json) (k : string) : result json :=
  match j with
  | JObj members => dict_getitem k members
  | _ => Raise TypeError
  end.

(** The body of the [if] of [read_cache], the file open and read:
    [self.scenarios] is assigned before [_cache['columns']] is looked up,
    so the object can change and the call raise. [None] when the value
    loaded for the scenarios or for the columns is of a shape the typed
    object cannot hold. *)
Definition load_cache (self : CTU_Dataset) (fs : filesystem)
    : option (CTU_Dataset * result unit) :=
  match os_stat fs with
  | Raise e => Some (self, Raise e)
  | Ok infile =>
      match json_loads (st_content infile) with
      | Raise e => Some (self, Raise e)
      | Ok _cache =>
          match json_getitem _cache "scenarios" with
          | Raise e => Some (self, Raise e)
          | Ok s =>
              match store_of_json s with
              | None => None
              | Some s =>
                  let self := set_scenarios self s in
                  match json_getitem _cache "columns" with
                  | Raise e => Some (self, Raise e)
                  | Ok c =>
                      match columns_of_json c with
                      | None => None
                      | Some c => Some (set_columns self c, Ok tt)
                      end
                  end
              end
          end
      end
  end.

(** [CTU_Dataset.read_cache], at time [now] *)
Definition read_cache (self : CTU_Dataset) (fs : filesystem) (now : Z)
    : option (CTU_Dataset * filesystem * result bool) :=
  let (fs1, expired) := cache_expired self fs now None in
  if negb expired then
    match load_cache self fs1 with
    | Some (self', res) => Some (self', fs1, bind res (fun _ => Ok true))
    | None => None
    end
  else Some (self, fs1, Ok false).

(** The state of the object once the event loop has run the page tasks
    of one group, one per scenario, to their end; an exception raised in
    a task stays in the task. *)
Variable run_tasks : CTU_Dataset -> string -> list string -> CTU_Dataset.
Variable BeautifulSoup : option string -> result Soup.
Variable requests_get : string -> result string.

(** [self.loop.run_until_complete(self.fetch_main(group, scenarios))]:
    [asyncio.wait] raises [ValueError] when it is given no task. *)
Definition fetch_main (self : CTU_Dataset) (group : string)
    (scenarios : list string) : CTU_Dataset * result unit :=
  match scenarios with
  | [] => (self, Raise ValueError)
  | _ :: _ => (run_tasks self group scenarios, Ok tt)
  end.

(** The loop of [load_ctu_metadata] over the groups: the object as the
    groups harvested so far left it, also when a group raises. *)
Fixpoint harvest (self : CTU_Dataset) (gs : list string)
    : CTU_Dataset * result unit :=
  match gs with
  | [] => (self, Ok tt)
  | group :: rest =>
      match dict_getitem group __DATASETS_URLS__ with
      | Raise e => (self, Raise e)
      | Ok url =>
          match get_scenarios BeautifulSoup requests_get group url with
          | Raise e => (self, Raise e)
          | Ok scenarios =>
              match fetch_main self group scenarios with
              | (self', Raise e) => (self', Raise e)
              | (self', Ok _) => harvest self' rest
              end
          end
      end
  end.

(** [CTU_Dataset.load_ctu_metadata], at time [now] *)
Definition load_ctu_metadata (self : CTU_Dataset) (fs : filesystem)
    (now : Z) : option (CTU_Dataset * filesystem * result unit) :=
  let (fs1, expired) := cache_expired self fs now None in
  if negb expired && negb (ignore_cache self) then
    match read_cache self fs1 now with
    | Some (self', fs2, res) => Some (self', fs2, bind res (fun _ => Ok tt))
    | None => None
    end
  else
    match harvest self (groups self) with
    | (self', Raise e) => Some (self', fs1, Raise e)
    | (self', Ok _) =>
        let (fs2, res) := write_cache self' fs1 now in
        Some (self', fs2, bind res (fun _ => Ok tt))
    end.

End Cache.

(** ** The semaphore and the fetches in flight

    The tasks that [fetch_main] hands to [asyncio.wait] interleave at
    their [await]s.  The control points of [record_scenario_metadata] that
    matter for the semaphore are kept, the dictionary it fills is left
    out. *)

Module Gate.

Inductive task : Type :=
| Waiting (url : string)
    (** at [async with self.sem] of [fetch_scenario], not admitted yet *)
| FetchingPage (url : string)
    (** inside [async with self.sem], awaiting [self.fetch(url)] *)
| Scanning (url : string) (lines : list string)
    (** in the loop over the lines of the page, the semaphore released *)
| FetchingSub (url : string) (lines : list string)
    (** in that loop, awaiting [self.fetch(url + __NETFLOW_DATA_DIR__)] *)
| Finished.

Record state : Type := { sem : nat; tasks : list task }.

Section Steps.

(** The lines of the visible text of the page at a URL; [None] when
    the fetch raises. *)
Variable page_lines : string -> option (list string).

(** What a task does when the event loop resumes it; [None] when it
    cannot be resumed (the semaphore has no slot, or it has ended). *)
Definition resume (sem : nat) (t : task) : option (nat * task) :=
  match t with
  | Waiting url =>
      match sem with
      | O => None
      | S n => Some (n, FetchingPage url)
      end
  | FetchingPage url =>
      match page_lines url with
      | Some lines => Some (S sem, Scanning url lines)
      | None => Some (S sem, Finished)
      end
  | Scanning url [] => Some (sem, Finished)
  | Scanning url (line :: lines) =>
      if Str.contains __NETFLOW_DATA_DIR__ line
      then Some (sem, FetchingSub url lines)
      else Some (sem, Scanning url lines)
  | FetchingSub url lines =>
      match page_lines (url ++ __NETFLOW_DATA_DIR__) with
      | Some _ => Some (sem, Scanning url lines)
      | None => Some (sem, Finished)
      end
  | Finished => None
  end.

Fixpoint set_nth (i : nat) (t : task) (l : list task) : list task :=
  match l, i with
  | [], _ => []
  | _ :: rest, O => t :: rest
  | x :: rest, S j => x :: set_nth j t rest
  end.

(** The event loop resumes task [i]; nothing happens when it cannot. *)
Definition step (i : nat) (s : state) : state :=
  match nth_error (tasks s) i with
  | None => s
  | Some t =>
      match resume (sem s) t with
      | None => s
      | Some (sem', t') => {| sem := sem'; tasks := set_nth i t' (tasks s) |}
      end
  end.

(** A schedule is the order in which tasks are resumed. *)
Definition run (schedule : list nat) (s : state) : state :=
  fold_left (fun s i => step i s) schedule s.

End Steps.

(** [fetch_main]: one task per scenario, under [self.sem]. *)
Definition start (self : CTU_Dataset) (scenarios : list string) : state :=
  {| sem := semaphore_limit self; tasks := map Waiting scenarios |}.

Definition fetching (t : task) : bool :=
  match t with
  | FetchingPage _ | FetchingSub _ _ => true
  | _ => false
  end.

Definition gated (t : task) : bool :=
  match t with
  | FetchingPage _ => true
  | _ => false
  end.

(** The fetches executing in a state, and those holding a slot. *)
Definition in_flight (s : state) : nat := length (filter fetching (tasks s)).
Definition holders (s : state) : nat := length (filter gated (tasks s)).

(** One when the task satisfies [f], zero otherwise. *)
Definition indicator (f : task -> bool) (t : task) : nat :=
  if f t then 1 else 0.

End Gate.

(** A dictionary as Python has it: no key twice. *)
Fixpoint distinct (l : list string) : bool :=
  match l with
  | [] => true
  | x :: rest => negb (str_in x rest) && distinct rest
  end.

Definition unique_keys {V} (d : pydict V) : bool := distinct (dict_keys d).

Fixpoint json_wf (v : json) : bool :=
  match v with
  | JArr items => forallb json_wf items
  | JObj members =>
      distinct (map fst members) &&
      forallb (fun kv => json_wf (snd kv)) members
  | _ => true
  end.

Definition store_wf (s : store) : bool :=
  unique_keys s && forallb (fun kv => unique_keys (snd kv)) s.

(** ** json: the text of a value and its reading

    [dumps] is the text [json.dump] writes with its default settings:
    members and items separated by a comma and a space, a colon and a space
    after a key, and in strings every character outside the printable
    ASCII range escaped.  [loads] reads a text back; as [json.load] does it
    keeps, for a key met more than once, the place of the first and the
    value of the last.  Numbers, which a store never holds, are left out:
    a text with a number is refused. *)

Module Json.

Definition hex_digit (n : nat) : ascii :=
  match String.get n "0123456789abcdef" with
  | Some a => a
  | None => "0"%char
  end.

(** One character of a string, as [json.dumps] writes it. *)
Definition escape (a : ascii) : string :=
  let n := nat_of_ascii a in
  if (n =? 34)%nat then "\" ++ dquote
  else if (n =? 92)%nat then "\\"
  else if (n =? 10)%nat then "\n"
  else if (n =? 13)%nat then "\r"
  else if (n =? 9)%nat then "\t"
  else if (n =? 8)%nat then "\b"
  else if (n =? 12)%nat then "\f"
  else if ((n <? 32) || (126 <? n))%nat
       then "\u00" ++ String (hex_digit (n / 16))
                        (String (hex_digit (n mod 16)) "")
  else String a "".

Fixpoint escape_all (s : string) : string :=
  match s with
  | EmptyString => ""
  | String a s' => escape a ++ escape_all s'
  end.

Definition quote (s : string) : string := dquote ++ escape_all s ++ dquote.

(** [json.dumps(v)] *)
Fixpoint dumps (v : json) : string :=
  match v with
  | JNull => "null"
  | JBool true => "true"
  | JBool false => "false"
  | JStr s => quote s
  | JArr items => "[" ++ Str.join ", " (map dumps items) ++ "]"
  | JObj members =>
      "{" ++ Str.join ", "
               (map (fun kv => quote (fst kv) ++ ": " ++ dumps (snd kv))
                  members) ++ "}"
  end.

(** White space between the tokens of a text: space, TAB, LF, CR. *)
Definition is_ws (a : ascii) : bool :=
  let n := nat_of_ascii a in
  ((n =? 32) || (n =? 9) || (n =? 10) || (n =? 13))%nat.

Fixpoint skip_ws (s : string) : string :=
  match s with
  | EmptyString => ""
  | String a s' => if is_ws a then skip_ws s' else s
  end.

Definition hex_value (a : ascii) : option nat :=
  let n := nat_of_ascii a in
  if ((48 <=? n) && (n <=? 57))%nat then Some (n - 48)%nat
  else if ((97 <=? n) && (n <=? 102))%nat then Some (n - 87)%nat
  else if ((65 <=? n) && (n <=? 70))%nat then Some (n - 55)%nat
  else None.

(** The character a backslash and [b] stand for, [u] apart. *)
Definition unescape (b : ascii) : option ascii :=
  let n := nat_of_ascii b in
  if (n =? 34)%nat then Some b
  else if (n =? 92)%nat then Some b
  else if (n =? 47)%nat then Some b
  else if (n =? 98)%nat then Some "008"%char
  else if (n =? 102)%nat then Some "012"%char
  else if (n =? 110)%nat then Some "010"%char
  else if (n =? 114)%nat then Some "013"%char
  else if (n =? 116)%nat then Some "009"%char
  else None.

Definition cons_char (a : ascii) (r : option (string * string))
    : option (string * string) :=
  match r with
  | Some (x, rest) => Some (String a x, rest)
  | None => None
  end.

(** The characters of a string up to its closing quote, and the text after
    it. A control character is refused, and so is an escape of a code
    point above 255, which a [string] cannot hold. *)
Fixpoint scan_string (s : string) : option (string * string) :=
  match s with
  | EmptyString => None
  | String a s1 =>
      if Ascii.eqb a "034" then Some ("", s1)
      else if Ascii.eqb a "\" then
        match s1 with
        | EmptyString => None
        | String b s2 =>
            if Ascii.eqb b "u" then
              match s2 with
              | String h1 (String h2 (String h3 (String h4 s6))) =>
                  match hex_value h1, hex_value h2, hex_value h3, hex_value h4 with
                  | Some d1, Some d2, Some d3, Some d4 =>
                      let n := (((d1 * 16 + d2) * 16 + d3) * 16 + d4)%nat in
                      if (n <? 256)%nat
                      then cons_char (ascii_of_nat n) (scan_string s6)
                      else None
                  | _, _, _, _ => None
                  end
              | _ => None
              end
            else
              match unescape b with
              | Some c => cons_char c (scan_string s2)
              | None => None
              end
        end
      else if (nat_of_ascii a <? 32)%nat then None
      else cons_char a (scan_string s1)
  end.

(** [dict(pairs)]: a key met again keeps its place and takes the new
    value. *)
Definition dict_of_pairs (pairs : list (string * json)) : list (string * json) :=
  fold_left (fun d kv => dict_set (fst kv) (snd kv) d) pairs [].

(** The text after [word], when the text begins with it. *)
Fixpoint strip_prefix (word s : string) : option string :=
  match word with
  | EmptyString => Some s
  | String a word' =>
      match s with
      | EmptyString => None
      | String b s' => if Ascii.eqb a b then strip_prefix word' s' else None
      end
  end.

Definition literal (word : string) (v : json) (s : string)
    : option (json * string) :=
  match strip_prefix word s with
  | Some rest => Some (v, rest)
  | None => None
  end.

(** A value at the head of a text, and the text after it. [fuel] bounds
    the nesting and the number of items read. *)
Fixpoint parse_value (fuel : nat) (s : string) : option (json * string) :=
  match fuel with
  | O => None
  | S fuel =>
      match s with
      | EmptyString => None
      | String a s1 =>
          if Ascii.eqb a "034" then
            match scan_string s1 with
            | Some (x, rest) => Some (JStr x, rest)
            | None => None
            end
          else if Ascii.eqb a "[" then
            match skip_ws s1 with
            | String b rest =>
                if Ascii.eqb b "]" then Some (JArr [], rest)
                else match parse_items fuel (String b rest) with
                     | Some (items, rest') => Some (JArr items, rest')
                     | None => None
                     end
            | EmptyString => None
            end
          else if Ascii.eqb a "{" then
            match skip_ws s1 with
            | String b rest =>
                if Ascii.eqb b "}" then Some (JObj [], rest)
                else match parse_members fuel (String b rest) with
                     | Some (pairs, rest') =>
                         Some (JObj (dict_of_pairs pairs), rest')
                     | None => None
                     end
            | EmptyString => None
            end
          else if Ascii.eqb a "n" then literal "null" JNull s
          else if Ascii.eqb a "t" then literal "true" (JBool true) s
          else if Ascii.eqb a "f" then literal "false" (JBool false) s
          else None
      end
  end

with parse_items (fuel : nat) (s : string) : option (list json * string) :=
  match fuel with
  | O => None
  | S fuel =>
      match parse_value fuel s with
      | None => None
      | Some (v, s1) =>
          match skip_ws s1 with
          | String b s2 =>
              if Ascii.eqb b "," then
                match parse_items fuel (skip_ws s2) with
                | Some (items, rest) => Some (v :: items, rest)
                | None => None
                end
              else if Ascii.eqb b "]" then Some ([v], s2)
              else None
          | EmptyString => None
          end
      end
  end

with parse_members (fuel : nat) (s : string)
    : option (list (string * json) * string) :=
  match fuel with
  | O => None
  | S fuel =>
      match s with
      | String q s1 =>
          if Ascii.eqb q "034" then
            match scan_string s1 with
            | None => None
            | Some (k, s2) =>
                match skip_ws s2 with
                | String c s3 =>
                    if Ascii.eqb c ":" then
                      match parse_value fuel (skip_ws s3) with
                      | None => None
                      | Some (v, s4) =>
                          match skip_ws s4 with
                          | String b s5 =>
                              if Ascii.eqb b "," then
                                match parse_members fuel (skip_ws s5) with
                                | Some (pairs, rest) =>
                                    Some ((k, v) :: pairs, rest)
                                | None => None
                                end
                              else if Ascii.eqb b "}" then Some ([(k, v)], s5)
                              else None
                          | EmptyString => None
                          end
                      end
                    else None
                | EmptyString => None
                end
            end
          else None
      | EmptyString => None
      end
  end.

(** [json.loads(s)]: one value, with nothing but white space around it. *)
Definition loads (s : string) : result json :=
  match parse_value (String.length s) (skip_ws s) with
  | Some (v, rest) =>
      if String.eqb (skip_ws rest) "" then Ok v else Raise ValueError
  | None => Raise ValueError
  end.

(** The first character of the text of a value is no white space and
    closes neither a list nor a dictionary. *)
Definition opens_value (s : string) : bool :=
  match s with
  | EmptyString => false
  | String a _ =>
      negb (is_ws a) && negb (Ascii.eqb a "]") && negb (Ascii.eqb a "}")
  end.

(** The fuel the reading of a value takes. *)
Fixpoint weight (v : json) : nat :=
  match v with
  | JArr items => S (list_sum (map (fun x => S (weight x)) items))
  | JObj members => S (list_sum (map (fun kv => S (weight (snd kv))) members))
  | _ => 1
  end.

(** A value written by [dumps] is read back, whatever follows it. *)
Definition reads_back (v : json) : Prop :=
  json_wf v = true ->
  forall fuel rest, (weight v <= fuel)%nat ->
    parse_value fuel (dumps v ++ rest) = Some (v, rest).

End Json.

(** ** Notions of the statements, and example data *)

(** A line feed, a scenario URL and a page that says "Not Found" and has
    a label line. *)
Definition LF : string := String "010" "".
Definition scenario_url : string :=
  "https://mcfp.felk.cvut.cz/publicDatasets/CTU-13-1/".
Definition not_found_page : string :=
  "404 Not Found" ++ LF ++ "MD5: deadbeef".

(** An object of group ctu13 with the given columns, cache timeout,
    semaphore limit and store. *)
Definition dataset (cols : list string) (timeout : Z) (limit : nat)
    (s : store) : CTU_Dataset :=
  {| groups := ["ctu13"]; columns := cols; cache_timeout := timeout;
     semaphore_limit := limit; ignore_cache := false; scenarios := s |}.

(** The entry of a row for column [c]. *)
Definition cell (scenario : string) (url : pyval) (attributes : record)
    (c : string) : pyval :=
  if String.eqb c "SCENARIO" then VStr scenario
  else if String.eqb c "SCENARIO_URL" then url
  else opt_val (dict_get c attributes).

(** A store of one scenario, with an empty MD5 and no SHA1. *)
Definition store_example : store :=
  [ ("CTU-13-1", [ ("GROUP", VStr "ctu13"); ("URL", VStr "u1");
                   ("_SUCCESS", VBool true); ("MD5", VStr "") ]) ].

(** The hrefs of the anchors that have one, in document order. *)
Definition anchor_hrefs (items : list Tag) : list string :=
  flat_map (fun item => match dict_get "href" (tag_attrs item) with
                        | Some h => [h]
                        | None => []
                        end) items.

(** An href that names a scenario: it holds the marker, ends in a slash
    and is not a query link. *)
Definition scenario_href (h : string) : bool :=
  Str.contains "/publicDatasets/" h && Str.endswith "/" h &&
  negb (Str.startswith "?" h).

(** A landing page with one anchor. *)
Definition landing_example : Soup :=
  {| soup_text := "CTU-13-1";
     soup_tags :=
       [ {| tag_name := "a";
            tag_attrs := [("href", "/publicDatasets/CTU-13-1/")] |} ] |}.

(** A store whose one scenario page had the line "SHA1: abc123" and no
    line for MD5 or SHA256. *)
Definition store_sha1_only : store :=
  [ ("CTU-13-1", [ ("GROUP", VStr "ctu13"); ("URL", VStr "u1");
                   ("_PAGE", VStr "SHA1: abc123"); ("_SUCCESS", VBool true);
                   ("SHA1", VStr "abc123") ]) ].


(** A step of the scan that keeps the keys of the record distinct. *)
Definition keeps_unique {A} (m : M A) : Prop :=
  forall r : record, unique_keys r = true -> unique_keys (fst (m r)) = true.




(** A line of a scenario page that names the netflow directory. *)
Definition listing_line : string :=
  "Labeled flows: detailed-bidirectional-flow-labels/".

(** An object after the harvest of one scenario, its page holding a line
    break, quotes and a backslash. *)
Definition cache_example : CTU_Dataset :=
  dataset __COLUMNS__ 60 10
    [ ("CTU-13-1",
       [ ("GROUP", VStr "ctu13"); ("URL", VStr scenario_url);
         ("_PAGE", VStr ("MD5: deadbeef" ++ LF ++ dquote ++ "x\y" ++ dquote));
         ("_SUCCESS", VBool true); ("MD5", VStr "deadbeef") ]) ].

(** ** Notions of the query facade *)


Definition name_ok (name_includes : option string) (attributes : record)
    : bool :=
  match name_includes with
  | None => true
  | Some n =>
      match dict_get "PROBABLE_NAME" attributes with
      | Some (VStr p) => Str.contains (Str.lower n) (Str.lower p)
      | _ => false
      end
  end.

Definition hash_ok (has_hash : option string) (attributes : record) : bool :=
  match has_hash with
  | None => true
  | Some h =>
      existsb (fun k => match dict_get k attributes with
                        | Some v => pyval_eqb (VStr h) v
                        | None => false
                        end) ["MD5"; "SHA1"; "SHA256"]
  end.


(** The row of a record of the store. *)
Definition row_of (cols : list string) (item : string * record) : list pyval :=
  map (cell (fst item) (opt_val (dict_get "URL" (snd item))) (snd item)) cols.


(** A store for the examples: a failed record, a record of another group
    and two records of group ctu13. *)
Definition store_query : store :=
  [ ("CTU-13-0", [ ("GROUP", VStr "ctu13"); ("URL", VStr "u0");
                   ("_SUCCESS", VBool false) ]);
    ("Mixed-1", [ ("GROUP", VStr "mixed"); ("URL", VStr "u1");
                  ("_SUCCESS", VBool true); ("PROBABLE_NAME", VStr "Zeus") ]);
    ("CTU-13-1", [ ("GROUP", VStr "ctu13"); ("URL", VStr "u2");
                   ("_SUCCESS", VBool true);
                   ("PROBABLE_NAME", VStr "Neris-Botnet");
                   ("MD5", VStr "m1"); ("SHA1", VStr "s1");
                   ("SHA256", VStr "t1") ]);
    ("CTU-13-2", [ ("GROUP", VStr "ctu13"); ("URL", VStr "u3");
                   ("_SUCCESS", VBool true) ]) ].

(** ** Notions of the page scan *)

(** The keys [record_scenario_metadata] writes besides the columns. *)
Definition bookkeeping : list string :=
  ["GROUP"; "URL"; "_PAGE"; "_SUCCESS"; "BINETFLOW"].

(** A record all of whose keys are bookkeeping keys or columns, and a
    store of such records. *)
Definition in_schema (cols : list string) (r : record) : bool :=
  forallb (fun k => str_in k bookkeeping || str_in k cols) (dict_keys r).

Definition store_in_schema (cols : list string) (s : store) : bool :=
  forallb (fun kv => in_schema cols (snd kv)) s.

(** A step of the scan that keeps a property of the record. *)
Definition keeps {A} (P : record -> Prop) (m : M A) : Prop :=
  forall r, P r -> P (fst (m r)).

(** A step of the scan that does not raise. *)
Definition never_raises (m : M unit) : Prop :=
  forall r, snd (m r) = Ok tt.

(** An anchor with the given href, and one without. *)
Definition anchor (href : string) : Tag :=
  {| tag_name := "a"; tag_attrs := [("href", href)] |}.

Definition bare_anchor : Tag := {| tag_name := "a"; tag_attrs := [] |}.

(** ** The listing command *)

Section Commands.

Variable json_dumps : json -> string.
Variable json_loads : string -> result json.
Variable run_tasks : CTU_Dataset -> string -> list string -> CTU_Dataset.
Variable BeautifulSoup : option string -> result Soup.
Variable requests_get : string -> result string.

(** The object [CTUList.take_action] builds on its first call: "all" among
    the groups stands for every group, the other arguments of the
    constructor are its defaults. *)
Definition CTUList_dataset (groups_arg : list string) (ignore_cache_arg : bool)
    : result CTU_Dataset :=
  let groups_arg := if str_in "all" groups_arg then __GROUPS__
                    else groups_arg in
  __init__ groups_arg __COLUMNS__ __CACHE_TIMEOUT__
    (Z.of_nat __SEMAPHORE_LIMIT__) ignore_cache_arg.

(** [CTUList.take_action] on its first call: the columns and the rows it
    hands to the table writer. *)
Definition CTUList_take_action (groups_arg : list string)
    (ignore_cache_arg : bool) (name_includes hash : option string)
    (fs : filesystem) (now : Z)
    : option (filesystem * result (list string * list (list pyval))) :=
  let groups_arg := if str_in "all" groups_arg then __GROUPS__
                    else groups_arg in
  match __init__ groups_arg __COLUMNS__ __CACHE_TIMEOUT__
          (Z.of_nat __SEMAPHORE_LIMIT__) ignore_cache_arg with
  | Raise e => Some (fs, Raise e)
  | Ok ctu_metadata =>
      match load_ctu_metadata json_dumps json_loads run_tasks BeautifulSoup
              requests_get ctu_metadata fs now with
      | None => None
      | Some (ctu_metadata, fs', Raise e) => Some (fs', Raise e)
      | Some (ctu_metadata, fs', Ok _) =>
          let columns := columns ctu_metadata in
          Some (fs', bind (get_metadata ctu_metadata (Some groups_arg)
                             name_includes hash)
                       (fun data => Ok (columns, data)))
      end
  end.

End Commands.


(** The content of a cache file with a store and no columns. *)
Definition cache_without_columns : string :=
  "{" ++ dquote ++ "scenarios" ++ dquote ++ ": {}}".


(** The argument [cache_timeout] of [cache_expired] when it is left out. *)
Definition week : Z := __CACHE_TIMEOUT__.

(** ** Notions of the semaphore model *)

Definition finished (t : Gate.task) : bool :=
  match t with
  | Gate.Finished => true
  | _ => false
  end.

(** What is left for a task to do, in resumptions at most. *)
Definition work (page_lines : string -> option (list string)) (t : Gate.task)
    : nat :=
  let lines_of url := match page_lines url with
                      | Some lines => length lines
                      | None => 0%nat
                      end in
  match t with
  | Gate.Waiting url => (3 + 2 * lines_of url)%nat
  | Gate.FetchingPage url => (2 + 2 * lines_of url)%nat
  | Gate.Scanning _ lines => (1 + 2 * length lines)%nat
  | Gate.FetchingSub _ lines => (2 + 2 * length lines)%nat
  | Gate.Finished => 0%nat
  end.

Definition total_work (page_lines : string -> option (list string))
    (s : Gate.state) : nat :=
  list_sum (map (work page_lines) (Gate.tasks s)).

(** ** The netflow download *)

From Stdlib Require Import DecimalString.

(** [str(n)] for an integer *)
Definition str_of_int (n : Z) : string := NilZero.string_of_int (Z.to_int n).

(** [l[i] = v], [IndexError] when [l] has no place [i]. *)
Fixpoint list_setitem (l : list string) (i : nat) (v : string)
    : result (list string) :=
  match l, i with
  | [], _ => Raise IndexError
  | _ :: rest, O => Ok (v :: rest)
  | x :: rest, S j => bind (list_setitem rest j v) (fun r => Ok (x :: r))
  end.

Definition use_columns : list nat :=
  [0; 1; 2; 3; 4; 6; 7; 8; 11; 12; 13; 14]%nat.

(** [[fields[i] for i in use_columns]] *)
Fixpoint select (fields : list string) (indices : list nat)
    : result (list string) :=
  match indices with
  | [] => Ok []
  | i :: rest =>
      bind (list_getitem fields i) (fun x =>
        bind (select fields rest) (fun xs => Ok (x :: xs)))
  end.

Section Netflow.

(** [str(datetime.strptime(s, '%Y/%m/%d %H:%M:%S.%f').timestamp())],
    [None] when it raises. *)
Variable epoch : string -> option string.
(** [int(x, base=16)] and [int(x)] *)
Variable int16 : string -> result Z.
Variable int10 : string -> result Z.

(** [unhex] *)
Definition unhex (x : string) : result string :=
  if String.eqb x "" then Ok "0"
  else if Str.startswith "0x" x then
    bind (int16 x) (fun n => Ok (str_of_int n))
  else Ok x.

(** The body of [if count > 0] for the fields of a record: [None] stands
    for [continue], the fields are those to write otherwise. *)
Definition data_fields (protocols fields : list string)
    : result (option (list string)) :=
  let _filter_protocols :=
    ((0 <? length protocols) ||
     ((length protocols =? 1) && str_in "any" protocols))%nat in
  bind (if _filter_protocols
        then bind (list_getitem fields 2) (fun proto =>
               Ok (negb (str_in proto protocols)))
        else Ok false)
    (fun skip : bool =>
       if skip then Ok None
       else
         let fields :=
           match fields with
           | start :: rest =>
               match epoch start with
               | Some t => t :: rest
               | None => fields
               end
           | [] => fields
           end in
         bind (list_getitem fields 2) (fun proto =>
           if String.eqb proto "icmp" then
             bind (list_getitem fields 4) (fun sport =>
               bind (unhex sport) (fun sport =>
                 bind (list_setitem fields 4 sport) (fun fields =>
                   bind (list_getitem fields 7) (fun dport =>
                     bind (unhex dport) (fun dport =>
                       bind (list_setitem fields 7 dport) (fun fields =>
                         Ok (Some fields)))))))
           else Ok (Some fields))).

(** The loop over the records, from [count] records written: what has
    been written to the file when the loop ends or raises. *)
Fixpoint write_records (protocols : list string) (maxlines : option string)
    (records : list string) (count : nat) (written : list string)
    : list string * result unit :=
  match records with
  | [] => (written, Ok tt)
  | record :: rest =>
      let fields := Str.split "," (Str.strip record) in
      match (if (0 <? count)%nat then data_fields protocols fields
             else Ok (Some fields)) with
      | Raise e => (written, Raise e)
      | Ok None => write_records protocols maxlines rest count written
      | Ok (Some fields) =>
          match select fields use_columns with
          | Raise e => (written, Raise e)
          | Ok columns =>
              let record := Str.join "," columns ++ LF in
              let written := (written ++ [record])%list in
              let count := S count in
              match maxlines with
              | None => write_records protocols maxlines rest count written
              | Some m =>
                  match int10 m with
                  | Raise e => (written, Raise e)
                  | Ok n =>
                      if (n <? Z.of_nat count)%Z then (written, Ok tt)
                      else write_records protocols maxlines rest count written
                  end
              end
          end
      end
  end.

(** [download_ctu_netflow] from the lines that [linereader.readlines()]
    gives: the records written to the output file, and how the loop
    ends. *)
Definition download_ctu_netflow (maxlines : option string)
    (protocols : list string) (lines : list string)
    : list string * result unit :=
  write_records protocols maxlines (map Str.strip lines) 0 [].

End Netflow.

(** The fields of a line as the loop splits them. *)
Definition fields_of (line : string) : list string :=
  Str.split "," (Str.strip (Str.strip line)).

(** A line the protocol filter lets through, or on which it raises. *)
Definition passes (protocols : list string) (line : string) : bool :=
  match nth_error (fields_of line) 2 with
  | Some proto => str_in proto protocols
  | None => true
  end.

(** A header and three flows of a capture. *)
Definition netflow_header : string :=
  "StartTime,Dur,Proto,SrcAddr,Sport,Dir,DstAddr,Dport,State,sTos,dTos,TotPkts,TotBytes,SrcBytes,Label".

Definition netflow_tcp : string :=
  "2011/08/10 09:46:53.047277,3550.18,tcp,10.0.0.1,1025,->,10.0.0.2,80,S_RA,0,0,4,276,156,Background".

Definition netflow_udp : string :=
  "2011/08/10 09:46:54.1,0.0,udp,10.0.0.3,53,<->,10.0.0.2,53,CON,0,0,2,120,60,Background".

(** The column an anchor of the scenario page fills and the href it puts
    there, if any. *)
Definition anchor_column (cols : list string) (item : Tag)
    : option (string * string) :=
  match dict_get "href" (tag_attrs item) with
  | None => None
  | Some href =>
      let ext := Str.upper (Str.drop1 (splitext_ext href)) in
      if Str.startswith "?" href || String.eqb ext "" || negb (str_in ext cols)
      then None
      else Some (ext, href)
  end.

(** * Properties *)

(** ** The string methods on sample inputs *)

Example splitlines_sample :
  Str.splitlines ("a" ++ String "013" LF ++ LF ++ "b" ++ LF) = ["a"; ""; "b"].
Proof. reflexivity. Qed.

Example split_sample : Str.split ":" "MD5: a:b" = ["MD5"; " a"; "b"].
Proof. reflexivity. Qed.

Example strip_sample : Str.strip ("  Neris bot " ++ LF) = "Neris bot".
Proof. reflexivity. Qed.

Example splitext_sample :
  map splitext_ext ["a/b.c/capture.tar.gz"; "a/.hidden"; "a.b/c"; "x..pcap"]
  = [".gz"; ""; ""; ".pcap"].
Proof. reflexivity. Qed.

Example scenario_name_sample : scenario_name scenario_url = Ok "CTU-13-1".
Proof. reflexivity. Qed.

Example dumps_sample :
  Json.dumps (JObj [("columns", JArr [JStr "MD5"; JNull]); ("ok", JBool true)])
  = "{" ++ dquote ++ "columns" ++ dquote ++ ": [" ++ dquote ++ "MD5" ++ dquote
    ++ ", null], " ++ dquote ++ "ok" ++ dquote ++ ": true}".
Proof. reflexivity. Qed.

(** ** Dictionaries *)

Section DictFacts.
Context {V : Type}.
Implicit Types (d : pydict V) (k : string) (v : V).

Lemma dict_get_set_same k v d : dict_get k (dict_set k v d) = Some v.
Proof.
  induction d as [|[k' v'] d IH]; simpl.
  - now rewrite String.eqb_refl.
  - destruct (String.eqb k k') eqn:E; simpl.
    + now rewrite String.eqb_refl.
    + now rewrite E.
Qed.

Lemma dict_get_set_other k k' v d :
  String.eqb k' k = false -> dict_get k' (dict_set k v d) = dict_get k' d.
Proof.
  intros Hne. induction d as [|[k0 v0] d IH]; simpl.
  - now rewrite Hne.
  - destruct (String.eqb k k0) eqn:E; simpl.
    + apply String.eqb_eq in E. subst k0. now rewrite Hne.
    + now rewrite IH.
Qed.

Lemma dict_get_set k k' v d :
  dict_get k' (dict_set k v d) =
  if String.eqb k' k then Some v else dict_get k' d.
Proof.
  destruct (String.eqb k' k) eqn:E.
  - apply String.eqb_eq in E. subst. apply dict_get_set_same.
  - now apply dict_get_set_other.
Qed.
End DictFacts.

Lemma str_in_In x l : str_in x l = true <-> In x l.
Proof.
  unfold str_in. rewrite existsb_exists. split.
  - intros [y [Hy E]]. apply String.eqb_eq in E. now subst.
  - intros H. exists x. split; [assumption | apply String.eqb_refl].
Qed.

(** ** The constructor *)

Lemma validate_groups_unknown gs g :
  In g gs -> str_in g __GROUPS__ = false ->
  exists g', In g' gs /\ str_in g' __GROUPS__ = false /\
             validate_groups gs = Raise (unknown_group g').
Proof.
  induction gs as [|g0 gs IH]; intros Hin Hg; [contradiction|].
  cbn [validate_groups].
  destruct (str_in g0 __GROUPS__) eqn:E0; cbn [negb].
  - destruct Hin as [->|Hin]; [congruence|].
    destruct (IH Hin Hg) as (g' & Hin' & Hg' & Hr).
    exists g'. repeat split; auto. now right.
  - exists g0. repeat split; auto. now left.
Qed.

Lemma validate_groups_ok gs :
  validate_groups gs = Ok tt -> forall g, In g gs -> str_in g __GROUPS__ = true.
Proof.
  induction gs as [|g0 gs IH]; intros Hv g Hin; [contradiction|].
  cbn [validate_groups] in Hv.
  destruct (str_in g0 __GROUPS__) eqn:E0; cbn [negb] in Hv; [|discriminate].
  destruct Hin as [->|Hin]; auto.
Qed.

(** C9. A [groups] list that contains "all" makes the constructor raise the
    unknown-group [RuntimeError] in the validation loop, for "all" is not a
    group name; so whenever the constructor returns, "all" was not in the
    list and [self.groups] is the list given: the expansion of "all" is
    never taken. *)
Theorem C9_all_is_rejected :
  forall (groups_arg columns_arg : list string) (ct : Z) (sl : Z) (ic : bool),
    (In "all" groups_arg ->
     exists g, In g groups_arg /\ str_in g __GROUPS__ = false /\
       __init__ groups_arg columns_arg ct sl ic = Raise (unknown_group g)) /\
    (forall self, __init__ groups_arg columns_arg ct sl ic = Ok self ->
       str_in "all" groups_arg = false /\ groups self = groups_arg).
Proof.
  intros groups_arg columns_arg ct sl ic. split.
  - intros Hall.
    destruct (validate_groups_unknown groups_arg "all" Hall eq_refl)
      as (g & Hin & Hg & Hr).
    exists g. repeat split; auto. unfold __init__. now rewrite Hr.
  - intros self Hinit. unfold __init__ in Hinit.
    destruct (validate_groups groups_arg) as [[]|e] eqn:Hv;
      cbn [bind] in Hinit; [|discriminate].
    assert (Hno : str_in "all" groups_arg = false).
    { destruct (str_in "all" groups_arg) eqn:E; auto.
      apply str_in_In in E.
      now pose proof (validate_groups_ok _ Hv _ E). }
    destruct (sl <? 0)%Z; [discriminate|].
    rewrite Hno in Hinit. injection Hinit as <-. now split.
Qed.

Lemma C9_all_is_rejected_witness :
  exists g, In g ["ctu13"; "all"] /\ str_in g __GROUPS__ = false /\
    __init__ ["ctu13"; "all"] __COLUMNS__ __CACHE_TIMEOUT__
      (Z.of_nat __SEMAPHORE_LIMIT__) false = Raise (unknown_group g).
Proof.
  apply (C9_all_is_rejected ["ctu13"; "all"] __COLUMNS__ __CACHE_TIMEOUT__
           (Z.of_nat __SEMAPHORE_LIMIT__) false).
  simpl. auto.
Defined.

(** ** The query facade *)

Lemma fill_row_keeps cols attributes : forall row c v,
  dict_get c row = Some v -> dict_get c (fill_row cols attributes row) = Some v.
Proof.
  unfold fill_row.
  induction cols as [|c0 cols IH]; intros row c v Hget; simpl; auto.
  apply IH. unfold dict_contains. destruct (dict_get c0 row) eqn:E0; auto.
  rewrite dict_get_set. destruct (String.eqb c c0) eqn:E; auto.
  apply String.eqb_eq in E. congruence.
Qed.

Lemma fill_row_sets cols attributes : forall row c,
  In c cols -> dict_get c row = None ->
  dict_get c (fill_row cols attributes row) =
  Some (opt_val (dict_get c attributes)).
Proof.
  unfold fill_row.
  induction cols as [|c0 cols IH]; intros row c Hin Hget; [contradiction|].
  simpl. unfold dict_contains.
  destruct (String.eqb c c0) eqn:E.
  - apply String.eqb_eq in E. subst c0. rewrite Hget.
    apply (fill_row_keeps cols attributes). apply dict_get_set_same.
  - destruct Hin as [->|Hin]; [now rewrite String.eqb_refl in E|].
    destruct (dict_get c0 row); apply IH; auto.
    now rewrite dict_get_set_other.
Qed.

Lemma project_fill_row scenario url attributes cols :
  project cols
    (fill_row cols attributes
       (dict_set "SCENARIO_URL" url (dict_set "SCENARIO" (VStr scenario) []))) =
  map (cell scenario url attributes) cols.
Proof.
  unfold project. apply map_ext_in. intros c Hin. unfold cell.
  destruct (String.eqb c "SCENARIO") eqn:E1.
  - apply String.eqb_eq in E1. subst c.
    now rewrite (fill_row_keeps cols attributes _ "SCENARIO" (VStr scenario)).
  - destruct (String.eqb c "SCENARIO_URL") eqn:E2.
    + apply String.eqb_eq in E2. subst c.
      now rewrite (fill_row_keeps cols attributes _ "SCENARIO_URL" url).
    + rewrite fill_row_sets; auto. simpl. now rewrite E2, E1.
Qed.

Lemma visit_row self groups_arg name_includes has_hash scenario attributes row :
  visit self groups_arg name_includes has_hash scenario attributes
    = Ok (Some row) ->
  exists url, dict_get "URL" attributes = Some url /\
              row = map (cell scenario url attributes) (columns self).
Proof.
  unfold visit. intros H.
  destruct (skip_failed attributes); [discriminate|].
  destruct (skip_group groups_arg attributes) as [[]|]; cbn [bind] in H;
    try discriminate.
  destruct (skip_name name_includes attributes) as [[]|]; cbn [bind] in H;
    try discriminate.
  unfold dict_getitem in H at 1.
  destruct (dict_get "URL" attributes) as [url|] eqn:Hurl; cbn [bind] in H;
    [|discriminate].
  destruct (skip_hash has_hash attributes) as [[]|]; cbn [bind] in H;
    try discriminate.
  injection H as <-. exists url. split; auto. apply project_fill_row.
Qed.

Lemma get_metadata_loop_rows self groups_arg name_includes has_hash :
  forall items data rows,
    get_metadata_loop self groups_arg name_includes has_hash items data
      = Ok rows ->
    forall row, In row rows ->
      In row data \/
      exists scenario attributes,
        In (scenario, attributes) items /\
        visit self groups_arg name_includes has_hash scenario attributes
          = Ok (Some row).
Proof.
  induction items as [|[scenario attributes] items IH]; intros data rows H row Hin.
  - injection H as <-. now left.
  - cbn [get_metadata_loop] in H.
    destruct (visit self groups_arg name_includes has_hash scenario attributes)
      as [o|] eqn:Hv; cbn [bind] in H; [|discriminate].
    destruct (IH _ _ H row Hin) as [Hd | (s & a & Hi & Hr)].
    + destruct o as [row0|]; [|now left].
      apply in_app_or in Hd. destruct Hd as [Hd | [<- | []]]; [now left|].
      right. exists scenario, attributes. split; [now left | assumption].
    + right. exists s, a. split; [now right | assumption].
Qed.

(** C10. Every row that [get_metadata] returns comes from a record of the
    store and has one entry per configured column, in the order of the
    columns: the entry of column SCENARIO is the key of the record, that of
    SCENARIO_URL is its URL field, and the entry of any other column is
    the field of that name, [None] when the record never had it. *)
Theorem C10_row_shape :
  forall self groups_arg name_includes has_hash rows,
    get_metadata self groups_arg name_includes has_hash = Ok rows ->
    forall row, In row rows ->
      exists scenario attributes url,
        In (scenario, attributes) (scenarios self) /\
        dict_get "URL" attributes = Some url /\
        length row = length (columns self) /\
        (forall i c, nth_error (columns self) i = Some c ->
           nth_error row i =
           Some (if String.eqb c "SCENARIO" then VStr scenario
                 else if String.eqb c "SCENARIO_URL" then url
                 else match dict_get c attributes with
                      | Some v => v
                      | None => VNone
                      end)).
Proof.
  intros self groups_arg name_includes has_hash rows H row Hin.
  destruct (get_metadata_loop_rows _ _ _ _ _ _ _ H row Hin)
    as [[] | (scenario & attributes & Hi & Hv)].
  destruct (visit_row _ _ _ _ _ _ _ Hv) as (url & Hurl & ->).
  exists scenario, attributes, url. repeat split; auto.
  - apply length_map.
  - intros i c Hc. rewrite nth_error_map, Hc. reflexivity.
Qed.

Lemma C10_row_shape_witness :
  exists scenario attributes url,
    In (scenario, attributes) store_example /\
    dict_get "URL" attributes = Some url /\
    length [VStr "CTU-13-1"; VStr "u1"; VStr ""; VNone] = 4%nat /\
    (forall i c, nth_error ["SCENARIO"; "SCENARIO_URL"; "MD5"; "SHA1"] i = Some c ->
       nth_error [VStr "CTU-13-1"; VStr "u1"; VStr ""; VNone] i =
       Some (if String.eqb c "SCENARIO" then VStr scenario
             else if String.eqb c "SCENARIO_URL" then url
             else match dict_get c attributes with
                  | Some v => v
                  | None => VNone
                  end)).
Proof.
  apply (C10_row_shape
           (dataset ["SCENARIO"; "SCENARIO_URL"; "MD5"; "SHA1"]
              __CACHE_TIMEOUT__ __SEMAPHORE_LIMIT__ store_example)
           (Some ["ctu13"]) None None
           [[VStr "CTU-13-1"; VStr "u1"; VStr ""; VNone]]).
  - reflexivity.
  - simpl. auto.
Defined.

(** ** Scenario discovery *)

Lemma scan_landing_filter items :
  scan_landing items = filter scenario_href (anchor_hrefs items).
Proof.
  unfold scan_landing.
  enough (H : forall acc,
             fold_left
               (fun scenarios item =>
                  let href := match tag_getitem item "href" with
                              | Ok h => h
                              | Raise _ => ""
                              end in
                  if Str.startswith "?" href then scenarios
                  else if Str.contains "/publicDatasets/" href &&
                          Str.endswith "/" href
                       then (scenarios ++ [href])%list
                       else scenarios) items acc =
             (acc ++ filter scenario_href (anchor_hrefs items))%list)
    by apply (H []).
  induction items as [|item items IH]; intros acc; simpl.
  - now rewrite app_nil_r.
  - rewrite IH. unfold tag_getitem, dict_getitem.
    destruct (dict_get "href" (tag_attrs item)) as [h|]; simpl.
    + unfold scenario_href at 2.
      destruct (Str.startswith "?" h); simpl.
      * now rewrite andb_false_r.
      * rewrite andb_true_r.
        destruct (Str.contains "/publicDatasets/" h && Str.endswith "/" h);
          simpl; auto.
        now rewrite <- app_assoc.
    + reflexivity.
Qed.

(** C8. When the landing page is fetched and parsed, [get_scenarios]
    returns, in document order, exactly the hrefs of the anchors that hold
    the marker "/publicDatasets/" and end in "/", anchors without an href
    and hrefs beginning with "?" being left out; a page whose only anchor
    has href "/publicDatasets/CTU-13-1/" gives that one URL. *)
Theorem C8_get_scenarios :
  forall (BeautifulSoup : option string -> result Soup)
         (requests_get : string -> result string)
         (group url text : string) (soup : Soup),
    requests_get url = Ok text ->
    BeautifulSoup (Some text) = Ok soup ->
    get_scenarios BeautifulSoup requests_get group url =
      Ok (filter scenario_href (anchor_hrefs (findAll "a" soup))) /\
    (forall attrs,
       dict_get "href" attrs = Some "/publicDatasets/CTU-13-1/" ->
       findAll "a" soup = [ {| tag_name := "a"; tag_attrs := attrs |} ] ->
       get_scenarios BeautifulSoup requests_get group url =
         Ok ["/publicDatasets/CTU-13-1/"]).
Proof.
  intros BeautifulSoup requests_get group url text soup Hget Hsoup.
  assert (Hgen : get_scenarios BeautifulSoup requests_get group url =
                 Ok (filter scenario_href (anchor_hrefs (findAll "a" soup)))).
  { unfold get_scenarios. rewrite Hget. cbn [bind]. rewrite Hsoup. cbn [bind].
    now rewrite scan_landing_filter. }
  split; [exact Hgen|].
  intros attrs Hhref Hall. rewrite Hgen, Hall. simpl. now rewrite Hhref.
Qed.

Lemma C8_get_scenarios_witness :
  get_scenarios (fun _ => Ok landing_example) (fun _ => Ok "page")
    "ctu13" "https://www.stratosphereips.org/datasets-ctu13" =
  Ok ["/publicDatasets/CTU-13-1/"].
Proof.
  refine (proj2 (C8_get_scenarios (fun _ => Ok landing_example)
                   (fun _ => Ok "page") "ctu13"
                   "https://www.stratosphereips.org/datasets-ctu13"
                   "page" landing_example eq_refl eq_refl)
            [("href", "/publicDatasets/CTU-13-1/")] _ _);
    reflexivity.
Defined.

(** ** The hash filter *)

(** C3. On a record that has SHA1 = "abc123" and no MD5 field, the hash
    filter raises [KeyError] at the subscript ['MD5'], for the hash that
    matches as for one that does not: the record is neither returned nor
    skipped. *)
Theorem C3_hash_filter_raises :
  let self := dataset __COLUMNS__ __CACHE_TIMEOUT__ __SEMAPHORE_LIMIT__
                store_sha1_only in
  get_metadata self (Some ["ctu13"]) None (Some "abc123")
    = Raise (KeyError "MD5") /\
  get_metadata self (Some ["ctu13"]) None (Some "xyz")
    = Raise (KeyError "MD5") /\
  get_metadata self (Some ["ctu13"]) None None
    = Ok [[ VStr "CTU-13-1"; VStr "ctu13"; VStr "u1"; VNone; VNone; VNone;
            VStr "abc123"; VNone; VNone; VNone; VNone ]].
Proof. repeat split. Qed.

(** ** Cache expiry *)

(** C5. A cache file of zero bytes written at the time of the call is
    deleted by [cache_expired], which then returns false (not expired): the
    age test that follows the deletion still runs on the modification time
    read before it. [load_ctu_metadata] then neither reads a cache nor
    harvests. An empty file older than the timeout is deleted and reported
    expired. *)
Theorem C5_empty_cache_not_expired :
  forall (json_dumps : json -> string) (json_loads : string -> result json)
         (run_tasks : CTU_Dataset -> string -> list string -> CTU_Dataset)
         (BeautifulSoup : option string -> result Soup)
         (requests_get : string -> result string)
         (cols : list string) (timeout : Z) (limit : nat) (s : store) (now : Z),
    let self := dataset cols timeout limit s in
    let empty := fun mtime => Some {| st_content := ""; st_mtime := mtime |} in
    cache_expired self (empty now) now None = (None, false) /\
    load_ctu_metadata json_dumps json_loads run_tasks BeautifulSoup
      requests_get self (empty now) now = Some (self, None, Ok tt) /\
    cache_expired self (empty (now - __CACHE_TIMEOUT__ - 1)%Z) now None
      = (None, true).
Proof.
  intros json_dumps json_loads run_tasks BeautifulSoup requests_get
    cols timeout limit s now self empty.
  assert (H1 : cache_expired self (empty now) now None = (None, false)).
  { unfold cache_expired, empty. simpl.
    replace (now - now)%Z with 0%Z by lia. reflexivity. }
  repeat split.
  - exact H1.
  - unfold load_ctu_metadata. rewrite H1. reflexivity.
  - unfold cache_expired, empty. cbn [os_stat st_size st_content st_mtime
      String.length Nat.eqb delete_cache fst].
    replace (now - (now - __CACHE_TIMEOUT__ - 1))%Z
      with (__CACHE_TIMEOUT__ + 1)%Z by lia.
    reflexivity.
Qed.

(** C6. An object built with [cache_timeout = 60] finds a cache file that
    is 120 seconds old not expired, and [load_ctu_metadata] reads it
    instead of harvesting: [cache_expired], called without argument as
    [load_ctu_metadata] and [read_cache] call it, compares the age with the
    default of its own parameter, a week, and never reads
    [self.cache_timeout]. *)
Theorem C6_configured_timeout_ignored :
  forall (run_tasks : CTU_Dataset -> string -> list string -> CTU_Dataset)
         (BeautifulSoup : option string -> result Soup)
         (requests_get : string -> result string),
    let self := dataset __COLUMNS__ 60 10 [] in
    let fs := fst (write_cache Json.dumps cache_example None 1000) in
    cache_timeout self = 60%Z /\
    cache_expired self fs 1120 None = (fs, false) /\
    load_ctu_metadata Json.dumps Json.loads run_tasks BeautifulSoup
      requests_get self fs 1120
    = Some (set_columns (set_scenarios self (scenarios cache_example))
              (columns cache_example), fs, Ok tt).
Proof. intros run_tasks BeautifulSoup requests_get. repeat split. Qed.

(** ** Splitting a line at its colons *)

Lemma split_not_nil c s : Str.split c s <> [].
Proof.
  destruct s as [|a s]; simpl; [discriminate|].
  destruct (Ascii.eqb a c); [discriminate|].
  destruct (Str.split c s); discriminate.
Qed.







(** ** The scan of a scenario page *)















(** ** Label lines *)






(** ** The store stays a dictionary *)

Lemma str_in_keys_dict_set {V} (x k : string) (v : V) (d : pydict V) :
  str_in x (dict_keys (dict_set k v d)) =
  str_in x (dict_keys d) || String.eqb x k.
Proof.
  induction d as [|[k' v'] d IH]; simpl.
  - now rewrite orb_false_r.
  - destruct (String.eqb k k') eqn:E; simpl.
    + apply String.eqb_eq in E. subst k'.
      destruct (String.eqb x k); simpl; [reflexivity | now rewrite orb_false_r].
    + rewrite IH. now rewrite orb_assoc.
Qed.

Lemma unique_keys_dict_set {V} (k : string) (v : V) (d : pydict V) :
  unique_keys d = true -> unique_keys (dict_set k v d) = true.
Proof.
  unfold unique_keys. induction d as [|[k' v'] d IH]; simpl; intros H.
  - reflexivity.
  - apply andb_true_iff in H as [Hk' Hd].
    destruct (String.eqb k k') eqn:E; simpl.
    + apply String.eqb_eq in E. subst k'. now rewrite Hk', Hd.
    + fold (dict_keys (dict_set k v d)). rewrite str_in_keys_dict_set.
      fold (dict_keys d) in Hk'. apply negb_true_iff in Hk'.
      rewrite Hk', String.eqb_sym, E. simpl. now apply IH.
Qed.

Lemma keeps_unique_ret {A} (a : A) : keeps_unique (ret a).
Proof. intros r Hr. exact Hr. Qed.

Lemma keeps_unique_lift {A} (x : result A) : keeps_unique (lift x).
Proof. intros r Hr. exact Hr. Qed.

Lemma keeps_unique_setitem k v : keeps_unique (setitem k v).
Proof. intros r Hr. simpl. now apply unique_keys_dict_set. Qed.

Lemma keeps_unique_mbind {A B} (m : M A) (f : A -> M B) :
  keeps_unique m -> (forall a, keeps_unique (f a)) -> keeps_unique (mbind m f).
Proof.
  intros Hm Hf r Hr. unfold mbind. specialize (Hm r Hr).
  destruct (m r) as [r' [a|e]]; simpl in *; [|assumption].
  now apply Hf.
Qed.

Lemma keeps_unique_for_each {X} (body : X -> M unit) l :
  (forall x, keeps_unique (body x)) -> keeps_unique (for_each body l).
Proof.
  intros Hb. induction l as [|x l IH]; simpl.
  - apply keeps_unique_ret.
  - apply keeps_unique_mbind; auto.
Qed.

Lemma keeps_unique_column_set cols k v :
  keeps_unique (if str_in k cols then setitem k v else ret tt).
Proof.
  destruct (str_in k cols);
    [apply keeps_unique_setitem | apply keeps_unique_ret].
Qed.

Lemma keeps_unique_scan_label cols line : keeps_unique (scan_label cols line).
Proof.
  unfold scan_label.
  destruct (Str.split ":" line) as [|_k [|_v [|? ?]]];
    try apply keeps_unique_ret.
  apply keeps_unique_column_set.
Qed.

Lemma keeps_unique_scan_subpage items : keeps_unique (scan_subpage items).
Proof.
  induction items as [|item items IH]; simpl.
  - apply keeps_unique_ret.
  - apply keeps_unique_mbind; [apply keeps_unique_lift|].
    intros href. destruct (Str.endswith ".binetflow" href); auto.
    apply keeps_unique_setitem.
Qed.

Lemma keeps_unique_scan_anchor cols item : keeps_unique (scan_anchor cols item).
Proof.
  unfold scan_anchor.
  destruct (Str.startswith "?" _); [apply keeps_unique_ret|].
  destruct (String.eqb _ ""); [apply keeps_unique_ret|].
  apply keeps_unique_column_set.
Qed.

Lemma keeps_unique_scan_line BeautifulSoup session_get self url line :
  keeps_unique (scan_line BeautifulSoup session_get self url line).
Proof.
  unfold scan_line. apply keeps_unique_mbind.
  - destruct (Str.contains __NETFLOW_DATA_DIR__ line);
      [|apply keeps_unique_ret].
    apply keeps_unique_mbind; [apply keeps_unique_lift|]. intros subpage.
    apply keeps_unique_mbind; [apply keeps_unique_lift|]. intros subsoup.
    apply keeps_unique_scan_subpage.
  - intros _. destruct (_ && _); [|apply keeps_unique_ret].
    apply keeps_unique_scan_label.
Qed.

Lemma keeps_unique_scrape BeautifulSoup session_get self group url :
  keeps_unique (scrape BeautifulSoup session_get self group url).
Proof.
  unfold scrape.
  apply keeps_unique_mbind; [apply keeps_unique_setitem|]. intros _.
  apply keeps_unique_mbind; [apply keeps_unique_setitem|]. intros _.
  apply keeps_unique_mbind; [apply keeps_unique_lift|]. intros page.
  apply keeps_unique_mbind; [apply keeps_unique_setitem|]. intros _.
  apply keeps_unique_mbind; [apply keeps_unique_setitem|]. intros _.
  apply keeps_unique_mbind; [apply keeps_unique_lift|]. intros soup.
  apply keeps_unique_mbind.
  - apply keeps_unique_for_each. intros line. apply keeps_unique_scan_line.
  - intros _. apply keeps_unique_for_each. intros item.
    apply keeps_unique_scan_anchor.
Qed.

Lemma forallb_dict_set {V} (f : string * V -> bool) k v (d : pydict V) :
  f (k, v) = true -> forallb f d = true -> forallb f (dict_set k v d) = true.
Proof.
  intros Hv. induction d as [|[k' v'] d IH]; simpl; intros H.
  - now rewrite Hv.
  - apply andb_true_iff in H as [H1 H2].
    destruct (String.eqb k k'); simpl; [now rewrite Hv | now rewrite H1, IH].
Qed.

Lemma dict_get_forallb {V} (f : string * V -> bool) k v (d : pydict V) :
  (forall k1 k2 x, f (k1, x) = f (k2, x)) ->
  forallb f d = true -> dict_get k d = Some v -> f (k, v) = true.
Proof.
  intros Hf. induction d as [|[k' v'] d IH]; simpl; intros H Hg; [discriminate|].
  apply andb_true_iff in H as [H1 H2].
  destruct (String.eqb k k'); auto. injection Hg as <-.
  now rewrite (Hf k k').
Qed.

(** Every call of [record_scenario_metadata] leaves a store in which no
    scenario and no field occurs twice, whether it raises or not. *)
Lemma store_wf_record_scenario_metadata BeautifulSoup session_get self group url :
  store_wf (scenarios self) = true ->
  store_wf (scenarios (fst (record_scenario_metadata BeautifulSoup
                              session_get self group url))) = true.
Proof.
  intros Hwf. unfold record_scenario_metadata.
  destruct url as [url|]; [|exact Hwf].
  destruct (scenario_name url) as [name|e]; [|exact Hwf].
  set (r0 := match dict_get name (scenarios self) with
             | Some r => r
             | None => []
             end).
  unfold store_wf in Hwf. apply andb_true_iff in Hwf as [Hk Hr].
  assert (H0 : unique_keys r0 = true).
  { unfold r0. destruct (dict_get name (scenarios self)) as [r|] eqn:E; auto.
    apply (dict_get_forallb (fun kv => unique_keys (snd kv)) name r
             (scenarios self)); auto. }
  pose proof (keeps_unique_scrape BeautifulSoup session_get self group url r0 H0)
    as H1.
  destruct (scrape BeautifulSoup session_get self group url r0) as [r res].
  cbn [fst scenarios set_scenarios] in *. unfold store_wf.
  rewrite (unique_keys_dict_set name r _ Hk). cbn [andb].
  now apply forallb_dict_set.
Qed.

(** ** The semaphore *)

Module GateFacts.
Import Gate.

Lemma count_set_nth (f : task -> bool) t' : forall l i t,
  nth_error l i = Some t ->
  (length (filter f (set_nth i t' l)) + indicator f t =
   length (filter f l) + indicator f t')%nat.
Proof.
  unfold indicator.
  induction l as [|x l IH]; intros [|i] t H; simpl in H; try discriminate.
  - injection H as ->. simpl. destruct (f t), (f t'); simpl; lia.
  - simpl. specialize (IH i t H). destruct (f x); simpl; lia.
Qed.

Lemma resume_slots page_lines n t n' t' :
  resume page_lines n t = Some (n', t') ->
  (n' + indicator gated t' = n + indicator gated t)%nat.
Proof.
  unfold indicator.
  destruct t as [url|url|url [|line lines]|url lines|]; simpl; intros H.
  - destruct n; [discriminate|]. injection H as <- <-. simpl. lia.
  - destruct (page_lines url); injection H as <- <-; simpl; lia.
  - injection H as <- <-. reflexivity.
  - destruct (Str.contains __NETFLOW_DATA_DIR__ line);
      injection H as <- <-; reflexivity.
  - destruct (page_lines _); injection H as <- <-; reflexivity.
  - discriminate.
Qed.

Lemma step_slots page_lines i s :
  (holders (step page_lines i s) + sem (step page_lines i s) =
   holders s + sem s)%nat.
Proof.
  unfold step.
  destruct (nth_error (tasks s) i) as [t|] eqn:Hn; [|reflexivity].
  destruct (resume page_lines (sem s) t) as [[n' t']|] eqn:Hr; [|reflexivity].
  unfold holders. simpl.
  pose proof (count_set_nth gated t' _ _ _ Hn).
  pose proof (resume_slots _ _ _ _ _ Hr). lia.
Qed.

(** The fetches of [fetch_scenario] never exceed the limit: those in
    flight and the free slots add up to [semaphore_limit]. *)
Lemma gated_fetches_bounded page_lines self scenarios schedule :
  let s := run page_lines schedule (start self scenarios) in
  (holders s + sem s = semaphore_limit self)%nat.
Proof.
  unfold run.
  assert (H0 : (holders (start self scenarios) + sem (start self scenarios)
                = semaphore_limit self)%nat).
  { unfold holders, start. simpl.
    induction scenarios; simpl; auto. }
  revert H0. generalize (start self scenarios).
  induction schedule as [|i schedule IH]; intros s Hs; simpl; auto.
  apply IH. now rewrite step_slots.
Qed.

End GateFacts.

(** C2. With a semaphore of one slot and two scenarios whose pages name
    the netflow directory, the first task fetches its page, releases the
    slot and starts the fetch of its listing, which takes no slot; the
    second task is then admitted and fetches its page: two fetches are in
    flight under a limit of one. *)
Theorem C2_nested_fetch_ungated :
  let self := dataset __COLUMNS__ __CACHE_TIMEOUT__ 1 [] in
  let s := Gate.run (fun _ => Some [listing_line]) [0; 0; 0; 1]%nat
             (Gate.start self ["u/publicDatasets/a/"; "u/publicDatasets/b/"]) in
  semaphore_limit self = 1%nat /\
  Gate.tasks s = [ Gate.FetchingSub "u/publicDatasets/a/" [];
                   Gate.FetchingPage "u/publicDatasets/b/" ] /\
  Gate.in_flight s = 2%nat /\
  Gate.holders s = 1%nat.
Proof. repeat split. Qed.

(** ** The text of a value read back *)

Lemma json_induction (P : json -> Prop) :
  P JNull ->
  (forall b, P (JBool b)) ->
  (forall s, P (JStr s)) ->
  (forall items, Forall P items -> P (JArr items)) ->
  (forall members, Forall (fun kv => P (snd kv)) members -> P (JObj members)) ->
  forall v, P v.
Proof.
  intros HNull HBool HStr HArr HObj. fix IH 1.
  intros [|b|s|items|members].
  - exact HNull.
  - apply HBool.
  - apply HStr.
  - apply HArr.
    induction items as [|x items IHl]; constructor; [apply IH | exact IHl].
  - apply HObj.
    induction members as [|x members IHl]; constructor; [apply IH | exact IHl].
Qed.

Lemma append_assoc (a b c : string) : (a ++ b) ++ c = a ++ (b ++ c).
Proof. induction a as [|x a IH]; simpl; [reflexivity | now rewrite IH]. Qed.

Lemma append_nil_r (a : string) : a ++ "" = a.
Proof. induction a as [|x a IH]; simpl; [reflexivity | now rewrite IH]. Qed.

Lemma length_append (a b : string) :
  String.length (a ++ b) = (String.length a + String.length b)%nat.
Proof. induction a as [|x a IH]; simpl; [reflexivity | now rewrite IH]. Qed.

Module JsonFacts.
Import Json.

Lemma scan_escape (a : ascii) (tail : string) :
  scan_string (escape a ++ tail) = cons_char a (scan_string tail).
Proof. destruct a as [[] [] [] [] [] [] [] []]; reflexivity. Qed.

Lemma scan_escape_all (s rest : string) :
  scan_string (escape_all s ++ dquote ++ rest) = Some (s, rest).
Proof.
  induction s as [|a s IH].
  - reflexivity.
  - cbn [escape_all]. rewrite append_assoc, scan_escape, IH. reflexivity.
Qed.

Lemma scan_quote (s rest : string) :
  exists body, quote s ++ rest = String "034" body /\
               scan_string body = Some (s, rest).
Proof.
  exists (escape_all s ++ dquote ++ rest). split.
  - unfold quote. now rewrite !append_assoc.
  - apply scan_escape_all.
Qed.

Lemma dumps_opens (v : json) (rest : string) :
  opens_value (dumps v ++ rest) = true.
Proof. destruct v as [|[]| | |]; reflexivity. Qed.

Lemma quote_opens (k rest : string) : opens_value (quote k ++ rest) = true.
Proof. reflexivity. Qed.

Lemma skip_ws_opens (s : string) : opens_value s = true -> skip_ws s = s.
Proof.
  destruct s as [|a s]; simpl; [discriminate|].
  destruct (is_ws a); [discriminate | reflexivity].
Qed.

Lemma dict_set_fresh {V} (k : string) (v : V) (d : pydict V) :
  str_in k (dict_keys d) = false -> dict_set k v d = (d ++ [(k, v)])%list.
Proof.
  induction d as [|[k' v'] d IH]; simpl; intros H; [reflexivity|].
  apply orb_false_iff in H as [Hk Hd]. rewrite Hk, (IH Hd). reflexivity.
Qed.

Lemma str_in_app x l1 l2 : str_in x (l1 ++ l2) = str_in x l1 || str_in x l2.
Proof. unfold str_in. apply existsb_app. Qed.

Lemma dict_of_pairs_distinct (pairs : list (string * json)) :
  distinct (map fst pairs) = true -> dict_of_pairs pairs = pairs.
Proof.
  unfold dict_of_pairs.
  enough (H : forall acc,
             distinct (map fst (acc ++ pairs)) = true ->
             fold_left (fun d kv => dict_set (fst kv) (snd kv) d) pairs acc
             = (acc ++ pairs)%list) by apply (H []).
  induction pairs as [|[k v] pairs IH]; intros acc Hd; simpl.
  - now rewrite app_nil_r.
  - assert (Hfresh : str_in k (dict_keys acc) = false).
    { clear IH. unfold dict_keys. induction acc as [|[k0 v0] acc IHa]; simpl in *.
      - reflexivity.
      - apply andb_true_iff in Hd as [Hk0 Hd].
        rewrite map_app, str_in_app in Hk0. simpl in Hk0.
        apply negb_true_iff, orb_false_iff in Hk0 as [_ Hk0].
        apply orb_false_iff in Hk0 as [Hk0 _].
        rewrite (IHa Hd), String.eqb_sym, Hk0. reflexivity. }
    rewrite (dict_set_fresh k v acc Hfresh).
    rewrite IH; rewrite <- app_assoc; [reflexivity | exact Hd].
Qed.

Lemma parse_items_dumps (x : json) (items : list json) :
  Forall reads_back (x :: items) ->
  forallb json_wf (x :: items) = true ->
  forall fuel rest,
    (list_sum (map (fun v => S (weight v)) (x :: items)) <= fuel)%nat ->
    parse_items fuel (Str.join ", " (map dumps (x :: items)) ++ "]" ++ rest)
    = Some (x :: items, rest).
Proof.
  revert x. induction items as [|y items IH]; intros x Hall Hwf fuel rest Hfuel.
  - apply Forall_inv in Hall. simpl in Hwf. rewrite andb_true_r in Hwf.
    simpl in Hfuel. destruct fuel as [|fuel]; [lia|].
    cbn [map Str.join parse_items].
    rewrite (Hall Hwf fuel ("]" ++ rest)) by lia. reflexivity.
  - pose proof (Forall_inv Hall) as Hx. apply Forall_inv_tail in Hall.
    cbn [forallb] in Hwf. apply andb_true_iff in Hwf as [Hwx Hwf].
    cbn [map list_sum fold_right] in Hfuel. destruct fuel as [|fuel]; [lia|].
    change (Str.join ", " (map dumps (x :: y :: items)))
      with (dumps x ++ ", " ++ Str.join ", " (map dumps (y :: items))).
    rewrite !append_assoc.
    set (T := Str.join ", " (map dumps (y :: items)) ++ "]" ++ rest).
    assert (Hopen : opens_value T = true).
    { unfold T. destruct items; cbn [map Str.join]; [apply dumps_opens|].
      rewrite append_assoc. apply dumps_opens. }
    cbn [parse_items]. rewrite (Hx Hwx fuel) by lia.
    change (skip_ws (", " ++ T)) with (String "," (String " " T)).
    cbv beta iota. change (Ascii.eqb "," ",") with true. cbv iota.
    change (skip_ws (String " " T)) with (skip_ws T).
    rewrite (skip_ws_opens _ Hopen). unfold T.
    rewrite (IH y Hall Hwf fuel rest) by (cbn [map list_sum fold_right]; lia).
    reflexivity.
Qed.

Lemma parse_members_dumps (m : string * json) (members : list (string * json)) :
  Forall (fun kv => reads_back (snd kv)) (m :: members) ->
  forallb (fun kv => json_wf (snd kv)) (m :: members) = true ->
  forall fuel rest,
    (list_sum (map (fun kv => S (weight (snd kv))) (m :: members)) <= fuel)%nat ->
    parse_members fuel
      (Str.join ", "
         (map (fun kv => quote (fst kv) ++ ": " ++ dumps (snd kv))
            (m :: members)) ++ "}" ++ rest)
    = Some (m :: members, rest).
Proof.
  revert m.
  induction members as [|m' members IH]; intros [k v] Hall Hwf fuel rest Hfuel.
  - apply Forall_inv in Hall. simpl in Hall.
    simpl in Hwf. rewrite andb_true_r in Hwf.
    simpl in Hfuel. destruct fuel as [|fuel]; [lia|].
    cbn [map Str.join fst snd]. rewrite !append_assoc.
    destruct (scan_quote k (": " ++ dumps v ++ "}" ++ rest)) as (body & -> & Hk).
    cbn [parse_members]. change (Ascii.eqb "034" "034") with true. cbv iota.
    rewrite Hk.
    change (skip_ws (": " ++ dumps v ++ "}" ++ rest))
      with (String ":" (String " " (dumps v ++ "}" ++ rest))).
    cbv beta iota. change (Ascii.eqb ":" ":") with true. cbv iota.
    change (skip_ws (String " " (dumps v ++ "}" ++ rest)))
      with (skip_ws (dumps v ++ "}" ++ rest)).
    rewrite (skip_ws_opens _ (dumps_opens v _)).
    rewrite (Hall Hwf fuel ("}" ++ rest)) by lia. reflexivity.
  - pose proof (Forall_inv Hall) as Hv. simpl in Hv.
    apply Forall_inv_tail in Hall.
    cbn [forallb snd] in Hwf. apply andb_true_iff in Hwf as [Hwv Hwf].
    cbn [map list_sum fold_right snd] in Hfuel.
    destruct fuel as [|fuel]; [lia|].
    change (Str.join ", "
              (map (fun kv => quote (fst kv) ++ ": " ++ dumps (snd kv))
                 ((k, v) :: m' :: members)))
      with ((quote k ++ ": " ++ dumps v) ++ ", " ++
            Str.join ", "
              (map (fun kv => quote (fst kv) ++ ": " ++ dumps (snd kv))
                 (m' :: members))).
    rewrite !append_assoc.
    set (T := Str.join ", "
                (map (fun kv => quote (fst kv) ++ ": " ++ dumps (snd kv))
                   (m' :: members)) ++ "}" ++ rest).
    assert (Hopen : opens_value T = true).
    { unfold T. destruct members; cbn [map Str.join].
      - rewrite append_assoc. apply quote_opens.
      - rewrite !append_assoc. apply quote_opens. }
    destruct (scan_quote k (": " ++ dumps v ++ ", " ++ T)) as (body & -> & Hk).
    cbn [parse_members]. change (Ascii.eqb "034" "034") with true. cbv iota.
    rewrite Hk.
    change (skip_ws (": " ++ dumps v ++ ", " ++ T))
      with (String ":" (String " " (dumps v ++ ", " ++ T))).
    cbv beta iota. change (Ascii.eqb ":" ":") with true. cbv iota.
    change (skip_ws (String " " (dumps v ++ ", " ++ T)))
      with (skip_ws (dumps v ++ ", " ++ T)).
    rewrite (skip_ws_opens _ (dumps_opens v _)).
    rewrite (Hv Hwv fuel (", " ++ T)) by lia.
    change (skip_ws (", " ++ T)) with (String "," (String " " T)).
    cbv beta iota. change (Ascii.eqb "," ",") with true. cbv iota.
    change (skip_ws (String " " T)) with (skip_ws T).
    rewrite (skip_ws_opens _ Hopen). unfold T.
    rewrite (IH m' Hall Hwf fuel rest)
      by (cbn [map list_sum fold_right]; lia).
    reflexivity.
Qed.

Lemma opens_value_inv (s : string) :
  opens_value s = true ->
  exists b r, s = String b r /\ Ascii.eqb b "]" = false /\
              Ascii.eqb b "}" = false /\ skip_ws s = s.
Proof.
  intros H. pose proof (skip_ws_opens s H) as Hs.
  destruct s as [|b r]; [discriminate|]. exists b, r.
  simpl in H. apply andb_true_iff in H as [H H3].
  apply andb_true_iff in H as [_ H2].
  apply negb_true_iff in H2, H3. auto.
Qed.

(** Every value is read back from its text. *)
Theorem parse_dumps (v : json) : reads_back v.
Proof.
  induction v as [|b|s|items IH|members IH] using json_induction;
    intros Hwf fuel rest Hfuel.
  - destruct fuel; [simpl in Hfuel; lia | reflexivity].
  - destruct fuel; [simpl in Hfuel; lia | destruct b; reflexivity].
  - destruct fuel; [simpl in Hfuel; lia|].
    cbn [dumps]. destruct (scan_quote s rest) as (body & -> & Hs).
    cbn [parse_value]. change (Ascii.eqb "034" "034") with true. cbv iota.
    now rewrite Hs.
  - destruct fuel as [|fuel]; [simpl in Hfuel; lia|].
    destruct items as [|x items]; [reflexivity|].
    cbn [dumps]. rewrite !append_assoc.
    set (T := Str.join ", " (map dumps (x :: items)) ++ "]" ++ rest).
    assert (Hopen : opens_value T = true).
    { unfold T. destruct items; cbn [map Str.join]; [apply dumps_opens|].
      rewrite append_assoc. apply dumps_opens. }
    destruct (opens_value_inv T Hopen) as (b & r & ET & Hb & _ & Hskip).
    change ("[" ++ T) with (String "[" T).
    cbn [parse_value]. change (Ascii.eqb "[" "034") with false.
    change (Ascii.eqb "[" "[") with true. cbv iota.
    rewrite Hskip, ET, Hb, <- ET. unfold T.
    cbn [weight] in Hfuel. cbn [json_wf] in Hwf.
    rewrite (parse_items_dumps x items IH Hwf fuel rest) by lia.
    reflexivity.
  - destruct fuel as [|fuel]; [simpl in Hfuel; lia|].
    destruct members as [|m members]; [reflexivity|].
    cbn [dumps]. rewrite !append_assoc.
    set (T := Str.join ", "
                (map (fun kv => quote (fst kv) ++ ": " ++ dumps (snd kv))
                   (m :: members)) ++ "}" ++ rest).
    assert (Hopen : opens_value T = true).
    { unfold T. destruct members; cbn [map Str.join].
      - rewrite append_assoc. apply quote_opens.
      - rewrite !append_assoc. apply quote_opens. }
    destruct (opens_value_inv T Hopen) as (b & r & ET & _ & Hb & Hskip).
    change ("{" ++ T) with (String "{" T).
    cbn [parse_value]. change (Ascii.eqb "{" "034") with false.
    change (Ascii.eqb "{" "[") with false.
    change (Ascii.eqb "{" "{") with true. cbv iota.
    rewrite Hskip, ET, Hb, <- ET. unfold T.
    cbn [weight] in Hfuel. cbn [json_wf] in Hwf.
    apply andb_true_iff in Hwf as [Hkeys Hwf].
    rewrite (parse_members_dumps m members IH Hwf fuel rest) by lia.
    now rewrite (dict_of_pairs_distinct _ Hkeys).
Qed.

Lemma join_length {A} (f : A -> string) (w : A -> nat) (sep : string)
    (l : list A) :
  Forall (fun x => (w x <= String.length (f x))%nat) l ->
  (list_sum (map w l) <= String.length (Str.join sep (map f l)))%nat.
Proof.
  induction l as [|x l IH]; intros H; [reflexivity|].
  pose proof (Forall_inv H) as Hx. cbv beta in Hx.
  apply Forall_inv_tail in H.
  specialize (IH H). destruct l as [|y l].
  - simpl. lia.
  - change (Str.join sep (map f (x :: y :: l)))
      with (f x ++ sep ++ Str.join sep (map f (y :: l))).
    rewrite !length_append. cbn [map list_sum fold_right] in *. lia.
Qed.

Lemma weight_length (v : json) : (S (weight v) <= String.length (dumps v))%nat.
Proof.
  induction v as [|b|s|items IH|members IH] using json_induction.
  - simpl. lia.
  - destruct b; simpl; lia.
  - cbn [dumps weight]. unfold quote. rewrite !length_append. simpl. lia.
  - cbn [dumps weight]. rewrite !length_append.
    pose proof (join_length dumps (fun x => S (weight x)) ", " items IH).
    change (String.length "[") with 1%nat.
    change (String.length "]") with 1%nat. lia.
  - cbn [dumps weight]. rewrite !length_append.
    assert (H : Forall (fun kv => (S (weight (snd kv)) <=
                          String.length (quote (fst kv) ++ ": " ++
                                         dumps (snd kv)))%nat) members).
    { eapply Forall_impl; [|exact IH]. intros kv Hkv. cbv beta in Hkv.
      rewrite !length_append. lia. }
    pose proof (join_length
                  (fun kv => quote (fst kv) ++ ": " ++ dumps (snd kv))
                  (fun kv => S (weight (snd kv))) ", " members H).
    change (String.length "{") with 1%nat.
    change (String.length "}") with 1%nat. lia.
Qed.

(** [json.loads(json.dumps(v))] gives [v] back. *)
Theorem loads_dumps (v : json) : json_wf v = true -> loads (dumps v) = Ok v.
Proof.
  intros Hwf. unfold loads.
  pose proof (dumps_opens v "") as Hopen. rewrite append_nil_r in Hopen.
  rewrite (skip_ws_opens _ Hopen).
  pose proof (parse_dumps v Hwf (String.length (dumps v)) "") as Hp.
  rewrite append_nil_r in Hp. rewrite Hp; [reflexivity|].
  pose proof (weight_length v). lia.
Qed.

Lemma dumps_not_empty (v : json) : dumps v <> "".
Proof.
  intros H. pose proof (weight_length v) as Hw. rewrite H in Hw.
  simpl in Hw. lia.
Qed.

End JsonFacts.

(** ** The cache written and read back *)

Lemma option_all_map_some {A B} (f : A -> option B) (g : B -> A) (l : list B) :
  (forall b, f (g b) = Some b) -> option_all (map f (map g l)) = Some l.
Proof.
  intros H. induction l as [|b l IH]; simpl; [reflexivity|].
  now rewrite H, IH.
Qed.

Lemma columns_of_json_of_columns (c : list string) :
  columns_of_json (json_of_columns c) = Some c.
Proof.
  unfold columns_of_json, json_of_columns.
  now apply option_all_map_some.
Qed.

Lemma record_of_json_of_record (r : record) :
  record_of_json (json_of_record r) = Some r.
Proof.
  unfold record_of_json, json_of_record, members_of.
  apply option_all_map_some. intros [k v]. now destruct v.
Qed.

Lemma store_of_json_of_store (s : store) :
  store_of_json (json_of_store s) = Some s.
Proof.
  unfold store_of_json, json_of_store, members_of.
  apply option_all_map_some. intros [k r]. cbn [fst snd].
  now rewrite record_of_json_of_record.
Qed.

Lemma forallb_map_true {A B} (f : B -> bool) (g : A -> B) (l : list A) :
  (forall a, In a l -> f (g a) = true) -> forallb f (map g l) = true.
Proof.
  induction l as [|a l IH]; intros H; simpl; [reflexivity|].
  rewrite (H a (or_introl eq_refl)), IH; [reflexivity|].
  intros b Hb. apply H. now right.
Qed.

Lemma map_fst_map_snd {A B} (g : A -> B) (l : list (string * A)) :
  map fst (map (fun kv => (fst kv, g (snd kv))) l) = map fst l.
Proof. induction l as [|x l IH]; simpl; [reflexivity | now rewrite IH]. Qed.

Lemma json_wf_columns (c : list string) : json_wf (json_of_columns c) = true.
Proof.
  unfold json_of_columns. cbn [json_wf]. now apply forallb_map_true.
Qed.

Lemma json_wf_record (r : record) :
  unique_keys r = true -> json_wf (json_of_record r) = true.
Proof.
  unfold unique_keys, dict_keys, json_of_record. intros H.
  cbn [json_wf]. rewrite map_fst_map_snd, H. cbn [andb].
  apply forallb_map_true. intros [k v] _. now destruct v.
Qed.

Lemma json_wf_store (s : store) :
  store_wf s = true -> json_wf (json_of_store s) = true.
Proof.
  unfold store_wf, unique_keys at 1, dict_keys, json_of_store. intros H.
  apply andb_true_iff in H as [Hk Hr].
  cbn [json_wf]. rewrite map_fst_map_snd, Hk. cbn [andb].
  apply forallb_map_true. rewrite forallb_forall in Hr.
  intros kv Hin. cbn [snd]. apply json_wf_record. now apply Hr.
Qed.

Lemma json_wf_cache (self : CTU_Dataset) :
  store_wf (scenarios self) = true ->
  json_wf (JObj [ ("scenarios", json_of_store (scenarios self));
                  ("columns", json_of_columns (columns self)) ]) = true.
Proof.
  intros H.
  change (distinct ["scenarios"; "columns"] &&
          (json_wf (json_of_store (scenarios self)) &&
           (json_wf (json_of_columns (columns self)) && true)) = true).
  now rewrite (json_wf_store _ H), json_wf_columns.
Qed.

(** C7. With a [json] whose [loads] reads back what [dumps] writes, never
    the empty text, for dictionaries without a repeated key: after
    [write_cache], a [read_cache] that finds the file not expired returns
    true and leaves the reading object with the scenarios of the writing
    one, keys and field values alike, and with its columns. *)
Theorem C7_cache_round_trip :
  forall (json_dumps : json -> string) (json_loads : string -> result json),
    (forall v, json_wf v = true -> json_loads (json_dumps v) = Ok v) ->
    (forall v, json_dumps v <> "") ->
    forall (self reader : CTU_Dataset) (fs : filesystem) (t_write t_read : Z),
      store_wf (scenarios self) = true ->
      let fs' := fst (write_cache json_dumps self fs t_write) in
      snd (cache_expired reader fs' t_read None) = false ->
      exists loaded,
        read_cache json_loads reader fs' t_read = Some (loaded, fs', Ok true) /\
        scenarios loaded = scenarios self /\
        columns loaded = columns self.
Proof.
  intros json_dumps json_loads Hrt Hne self reader fs t_write t_read Hwf fs' Hfresh.
  set (_cache := JObj [ ("scenarios", json_of_store (scenarios self));
                        ("columns", json_of_columns (columns self)) ]).
  assert (Efs : fs' = Some {| st_content := json_dumps _cache;
                              st_mtime := t_write |}) by reflexivity.
  assert (Hce : cache_expired reader fs' t_read None = (fs', false)).
  { rewrite Efs in Hfresh |- *. unfold cache_expired in *.
    cbn [os_stat] in *. unfold st_size in *. cbn [st_content st_mtime] in *.
    specialize (Hne _cache).
    destruct (json_dumps _cache) as [|a s]; [congruence|].
    cbn [String.length Nat.eqb] in *. cbn [snd] in Hfresh.
    now rewrite Hfresh. }
  exists (set_columns (set_scenarios reader (scenarios self)) (columns self)).
  split; [|split; reflexivity].
  unfold read_cache. rewrite Hce. cbn [negb].
  unfold load_cache. rewrite Efs. cbn [os_stat st_content].
  rewrite (Hrt _cache (json_wf_cache self Hwf)).
  unfold _cache, json_getitem, dict_getitem. simpl dict_get. cbv beta iota.
  rewrite store_of_json_of_store. cbv beta iota zeta.
  rewrite columns_of_json_of_columns. reflexivity.
Qed.

Lemma C7_cache_round_trip_witness :
  let fs' := fst (write_cache Json.dumps cache_example None 1000) in
  exists loaded,
    read_cache Json.loads (dataset [] 60 10 []) fs' 2000
      = Some (loaded, fs', Ok true) /\
    scenarios loaded = scenarios cache_example /\
    columns loaded = columns cache_example.
Proof.
  apply (C7_cache_round_trip Json.dumps Json.loads JsonFacts.loads_dumps
           JsonFacts.dumps_not_empty cache_example (dataset [] 60 10 []) None
           1000 2000).
  - reflexivity.
  - reflexivity.
Defined.

(** ** What a query lists *)

Lemma skip_hash_ok has_hash attributes b :
  skip_hash has_hash attributes = Ok b -> b = negb (hash_ok has_hash attributes).
Proof.
  unfold skip_hash, hash_ok, dict_getitem. destruct has_hash as [h|].
  - cbn [existsb].
    destruct (dict_get "MD5" attributes) as [md5|]; cbn [bind]; [|discriminate].
    destruct (pyval_eqb (VStr h) md5); [intros [= <-]; reflexivity|].
    destruct (dict_get "SHA1" attributes) as [sha1|]; cbn [bind]; [|discriminate].
    destruct (pyval_eqb (VStr h) sha1); [intros [= <-]; reflexivity|].
    destruct (dict_get "SHA256" attributes) as [sha256|]; cbn [bind];
      [|discriminate].
    intros [= <-]. cbn [orb]. now rewrite orb_false_r.
  - intros [= <-]. reflexivity.
Qed.

Lemma skip_name_ok name_includes attributes b :
  skip_name name_includes attributes = Ok b ->
  b = negb (name_ok name_includes attributes).
Proof.
  unfold skip_name, name_ok. destruct name_includes as [n|].
  - destruct (dict_get "PROBABLE_NAME" attributes) as [[| |p]|];
      try discriminate; intros [= <-]; reflexivity.
  - intros [= <-]. reflexivity.
Qed.

Lemma visit_selected self groups_arg name_includes has_hash scenario
    attributes row :
  visit self groups_arg name_includes has_hash scenario attributes
    = Ok (Some row) ->
  row = row_of (columns self) (scenario, attributes) /\
  skip_failed attributes = false /\
  (forall g, dict_get "GROUP" attributes = Some g ->
     exists gs, groups_arg = Some gs /\ pyval_in g gs = true) /\
  name_ok name_includes attributes = true /\
  hash_ok has_hash attributes = true.
Proof.
  intros H. destruct (visit_row _ _ _ _ _ _ _ H) as (url & Hurl & Hrow).
  unfold visit in H.
  destruct (skip_failed attributes) eqn:Hf; [discriminate|].
  destruct (skip_group groups_arg attributes) as [[]|] eqn:Hg; cbn [bind] in H;
    try discriminate.
  destruct (skip_name name_includes attributes) as [[]|] eqn:Hn;
    cbn [bind] in H; try discriminate.
  unfold dict_getitem in H at 1. rewrite Hurl in H. cbn [bind] in H.
  destruct (skip_hash has_hash attributes) as [[]|] eqn:Hh; cbn [bind] in H;
    try discriminate.
  repeat split.
  - unfold row_of. cbn [fst snd]. now rewrite Hurl.
  - intros g Hgr. unfold skip_group in Hg. rewrite Hgr in Hg.
    destruct groups_arg as [gs|]; [|discriminate].
    exists gs. split; auto. injection Hg as Hg.
    now apply negb_false_iff in Hg.
  - apply skip_name_ok in Hn. now destruct (name_ok name_includes attributes).
  - apply skip_hash_ok in Hh. now destruct (hash_ok has_hash attributes).
Qed.

(** X1. Whatever [get_metadata] returns, each of its rows is the row of a
    record of the store that is not flagged as failed, whose group, when
    it has one, is among the groups asked for, whose PROBABLE_NAME holds
    the name asked for (case apart) and one of whose MD5, SHA1, SHA256 is
    the hash asked for. *)
Theorem X1_rows_pass_the_filters :
  forall self groups_arg name_includes has_hash rows,
    get_metadata self groups_arg name_includes has_hash = Ok rows ->
    forall row, In row rows ->
      exists scenario attributes,
        In (scenario, attributes) (scenarios self) /\
        row = row_of (columns self) (scenario, attributes) /\
        skip_failed attributes = false /\
        (forall g, dict_get "GROUP" attributes = Some g ->
           exists gs, groups_arg = Some gs /\ pyval_in g gs = true) /\
        name_ok name_includes attributes = true /\
        hash_ok has_hash attributes = true.
Proof.
  intros self groups_arg name_includes has_hash rows H row Hin.
  destruct (get_metadata_loop_rows _ _ _ _ _ _ _ H row Hin)
    as [[] | (scenario & attributes & Hi & Hv)].
  exists scenario, attributes. split; [assumption|].
  now apply visit_selected.
Qed.

Lemma X1_rows_pass_the_filters_witness :
  exists scenario attributes,
    In (scenario, attributes) store_query /\
    [VStr "CTU-13-1"; VStr "Neris-Botnet"] =
      row_of ["SCENARIO"; "PROBABLE_NAME"] (scenario, attributes) /\
    skip_failed attributes = false /\
    (forall g, dict_get "GROUP" attributes = Some g ->
       exists gs, Some ["ctu13"] = Some gs /\ pyval_in g gs = true) /\
    name_ok (Some "NERIS") attributes = true /\
    hash_ok None attributes = true.
Proof.
  apply (X1_rows_pass_the_filters
           (dataset ["SCENARIO"; "PROBABLE_NAME"] 60 10 store_query)
           (Some ["ctu13"]) (Some "NERIS") None
           [[VStr "CTU-13-1"; VStr "Neris-Botnet"]]).
  - reflexivity.
  - simpl. auto.
Defined.





(** X3. Called with its default [groups=None], [get_metadata] raises
    [TypeError] on any store in which every record has a GROUP field, as
    every harvested record has, and some record is not flagged as failed:
    the membership test [not in None] is reached at the first such
    record, before the name and hash tests. *)
Theorem X3_default_groups_raise :
  forall self name_includes has_hash,
    forallb (fun kv => dict_contains "GROUP" (snd kv)) (scenarios self) = true ->
    existsb (fun kv => negb (skip_failed (snd kv))) (scenarios self) = true ->
    get_metadata self None name_includes has_hash = Raise TypeError.
Proof.
  intros self name_includes has_hash. unfold get_metadata.
  generalize (@nil (list pyval)).
  induction (scenarios self) as [|[scenario attributes] items IH];
    intros data Hg He; [discriminate|].
  cbn [forallb existsb snd] in Hg, He.
  apply andb_true_iff in Hg as [Hg1 Hg].
  cbn [get_metadata_loop]. unfold visit.
  destruct (skip_failed attributes) eqn:Hf.
  - cbn [bind]. simpl in He. now apply IH.
  - unfold skip_group. unfold dict_contains in Hg1.
    destruct (dict_get "GROUP" attributes); [reflexivity | discriminate].
Qed.

Lemma X3_default_groups_raise_witness :
  get_metadata (dataset __COLUMNS__ 60 10 store_query) None None None
  = Raise TypeError.
Proof.
  apply (X3_default_groups_raise (dataset __COLUMNS__ 60 10 store_query)
           None None); reflexivity.
Defined.

(** ** What the page scan writes *)

Lemma keeps_ret {A} P (a : A) : keeps P (ret a).
Proof. intros r Hr. exact Hr. Qed.

Lemma keeps_lift {A} P (x : result A) : keeps P (lift x).
Proof. intros r Hr. exact Hr. Qed.

Lemma keeps_mbind {A B} P (m : M A) (f : A -> M B) :
  keeps P m -> (forall a, keeps P (f a)) -> keeps P (mbind m f).
Proof.
  intros Hm Hf r Hr. unfold mbind. specialize (Hm r Hr).
  destruct (m r) as [r' [a|e]]; simpl in *; [|assumption].
  now apply Hf.
Qed.

Lemma keeps_for_each {X} P (body : X -> M unit) l :
  (forall x, keeps P (body x)) -> keeps P (for_each body l).
Proof.
  intros Hb. induction l as [|x l IH]; simpl.
  - apply keeps_ret.
  - apply keeps_mbind; auto.
Qed.

Lemma dict_keys_dict_set {V} (k : string) (v : V) (d : pydict V) :
  dict_keys (dict_set k v d) =
  if dict_contains k d then dict_keys d else (dict_keys d ++ [k])%list.
Proof.
  unfold dict_contains, dict_keys.
  induction d as [|[k' v'] d IH]; simpl; [reflexivity|].
  destruct (String.eqb k k') eqn:E; simpl.
  - apply String.eqb_eq in E. now subst k'.
  - rewrite IH. now destruct (dict_get k d).
Qed.

Lemma in_schema_dict_set cols k v r :
  str_in k bookkeeping || str_in k cols = true ->
  in_schema cols r = true -> in_schema cols (dict_set k v r) = true.
Proof.
  unfold in_schema. intros Hk H. rewrite dict_keys_dict_set.
  destruct (dict_contains k r); [exact H|].
  rewrite forallb_app, H. cbn [forallb]. now rewrite Hk.
Qed.

Lemma keeps_schema_setitem cols k v :
  str_in k bookkeeping || str_in k cols = true ->
  keeps (fun r => in_schema cols r = true) (setitem k v).
Proof. intros Hk r Hr. simpl. now apply in_schema_dict_set. Qed.

Lemma keeps_schema_column_set cols k v :
  keeps (fun r => in_schema cols r = true)
    (if str_in k cols then setitem k v else ret tt).
Proof.
  destruct (str_in k cols) eqn:E; [|apply keeps_ret].
  apply keeps_schema_setitem. rewrite E. apply orb_true_r.
Qed.

Lemma keeps_schema_scrape BeautifulSoup session_get self group url :
  keeps (fun r => in_schema (columns self) r = true)
    (scrape BeautifulSoup session_get self group url).
Proof.
  unfold scrape.
  apply keeps_mbind; [now apply keeps_schema_setitem|]. intros _.
  apply keeps_mbind; [now apply keeps_schema_setitem|]. intros _.
  apply keeps_mbind; [apply keeps_lift|]. intros page.
  apply keeps_mbind; [now apply keeps_schema_setitem|]. intros _.
  apply keeps_mbind; [now apply keeps_schema_setitem|]. intros _.
  apply keeps_mbind; [apply keeps_lift|]. intros soup.
  apply keeps_mbind.
  - apply keeps_for_each. intros line. unfold scan_line.
    apply keeps_mbind.
    + destruct (Str.contains __NETFLOW_DATA_DIR__ line); [|apply keeps_ret].
      apply keeps_mbind; [apply keeps_lift|]. intros subpage.
      apply keeps_mbind; [apply keeps_lift|]. intros subsoup.
      induction (findAll "a" subsoup) as [|item items IH]; simpl.
      * apply keeps_ret.
      * apply keeps_mbind; [apply keeps_lift|]. intros href.
        destruct (Str.endswith ".binetflow" href); auto.
        now apply keeps_schema_setitem.
    + intros _. destruct (_ && _); [|apply keeps_ret].
      unfold scan_label.
      destruct (Str.split ":" line) as [|_k [|_v [|? ?]]];
        try apply keeps_ret.
      apply keeps_schema_column_set.
  - intros _. apply keeps_for_each. intros item. unfold scan_anchor.
    destruct (Str.startswith "?" _); [apply keeps_ret|].
    destruct (String.eqb _ ""); [apply keeps_ret|].
    apply keeps_schema_column_set.
Qed.

(** X4. [record_scenario_metadata] keeps the store within the schema: if
    every key of every record is GROUP, URL, _PAGE, _SUCCESS, BINETFLOW or
    a configured column before the call, so it is after it, whether the
    call returns or raises. A label or a file extension that is no column
    is never stored. *)
Theorem X4_store_stays_in_schema :
  forall (BeautifulSoup : option string -> result Soup)
         (session_get : string -> result (option string))
         (self : CTU_Dataset) (group : string) (url : option string),
    store_in_schema (columns self) (scenarios self) = true ->
    store_in_schema (columns self)
      (scenarios (fst (record_scenario_metadata BeautifulSoup session_get
                         self group url))) = true.
Proof.
  intros BeautifulSoup session_get self group url Hs.
  unfold record_scenario_metadata.
  destruct url as [url|]; [|exact Hs].
  destruct (scenario_name url) as [name|e]; [|exact Hs].
  set (r0 := match dict_get name (scenarios self) with
             | Some r => r
             | None => []
             end).
  assert (H0 : in_schema (columns self) r0 = true).
  { unfold r0. destruct (dict_get name (scenarios self)) as [r|] eqn:E; auto.
    apply (dict_get_forallb (fun kv => in_schema (columns self) (snd kv))
             name r (scenarios self)); auto. }
  pose proof (keeps_schema_scrape BeautifulSoup session_get self group url
                r0 H0) as H1.
  destruct (scrape BeautifulSoup session_get self group url r0) as [r res].
  cbn [fst scenarios set_scenarios] in *. unfold store_in_schema.
  now apply forallb_dict_set.
Qed.

Lemma X4_store_stays_in_schema_witness :
  store_in_schema __COLUMNS__
    (scenarios (fst (record_scenario_metadata text_only
                       (fun _ => Ok (Some not_found_page))
                       (dataset __COLUMNS__ 60 10 store_query)
                       "ctu13" (Some scenario_url)))) = true.
Proof.
  apply (X4_store_stays_in_schema text_only (fun _ => Ok (Some not_found_page))
           (dataset __COLUMNS__ 60 10 store_query) "ctu13" (Some scenario_url)).
  reflexivity.
Defined.

(** X5. [record_scenario_metadata] keeps the store a dictionary of
    dictionaries: when no scenario name and, within a record, no field
    name occurs twice before the call, none does after it, whether the
    call returns or raises. *)
Theorem X5_store_stays_well_formed :
  forall (BeautifulSoup : option string -> result Soup)
         (session_get : string -> result (option string))
         (self : CTU_Dataset) (group : string) (url : option string),
    store_wf (scenarios self) = true ->
    store_wf (scenarios (fst (record_scenario_metadata BeautifulSoup
                                session_get self group url))) = true.
Proof.
  intros BeautifulSoup session_get self group url.
  apply store_wf_record_scenario_metadata.
Qed.

Lemma X5_store_stays_well_formed_witness :
  store_wf
    (scenarios (fst (record_scenario_metadata text_only
                       (fun _ => Ok (Some not_found_page))
                       (dataset __COLUMNS__ 60 10 store_query)
                       "ctu13" (Some scenario_url)))) = true.
Proof.
  apply (X5_store_stays_well_formed text_only
           (fun _ => Ok (Some not_found_page))
           (dataset __COLUMNS__ 60 10 store_query) "ctu13" (Some scenario_url)).
  reflexivity.
Defined.

(** X6. [record_scenario_metadata] touches one record only, that of the
    scenario named by the URL: every other record of the store is as
    before, the scenario names keep their order, and the name of the URL
    is added last when it is new. With no URL, or a URL that names no
    scenario, the store is as before. *)
Theorem X6_other_scenarios_untouched :
  forall (BeautifulSoup : option string -> result Soup)
         (session_get : string -> result (option string))
         (self : CTU_Dataset) (group : string) (url : option string),
    let after := scenarios (fst (record_scenario_metadata BeautifulSoup
                                   session_get self group url)) in
    match url with
    | None => after = scenarios self
    | Some u =>
        match scenario_name u with
        | Raise _ => after = scenarios self
        | Ok name =>
            (forall other, other <> name ->
               dict_get other after = dict_get other (scenarios self)) /\
            dict_keys after =
              if dict_contains name (scenarios self)
              then dict_keys (scenarios self)
              else (dict_keys (scenarios self) ++ [name])%list
        end
    end.
Proof.
  intros BeautifulSoup session_get self group url after. subst after.
  unfold record_scenario_metadata.
  destruct url as [u|]; [|reflexivity].
  destruct (scenario_name u) as [name|e]; [|reflexivity].
  destruct (scrape BeautifulSoup session_get self group u _) as [r res].
  cbn [fst scenarios set_scenarios]. split.
  - intros other Hne. apply dict_get_set_other.
    now apply String.eqb_neq.
  - apply dict_keys_dict_set.
Qed.

(** ** Where the page scan raises *)

Lemma list_index_absent x l :
  str_in x l = false -> list_index x l = Raise ValueError.
Proof.
  induction l as [|y l IH]; simpl; intros H; [reflexivity|].
  apply orb_false_iff in H as [H1 H2].
  rewrite String.eqb_sym, H1, (IH H2). reflexivity.
Qed.

Lemma list_index_last x l :
  str_in x l = false ->
  list_index x (l ++ [x]) = Ok (length l) /\
  nth_error (l ++ [x]) (length l + 1) = None.
Proof.
  induction l as [|y l IH]; simpl; intros H.
  - now rewrite String.eqb_refl.
  - apply orb_false_iff in H as [H1 H2].
    rewrite String.eqb_sym, H1. destruct (IH H2) as [-> Hn]. auto.
Qed.

Lemma split_app c a b :
  Str.split c (a ++ String c b) = (Str.split c a ++ Str.split c b)%list.
Proof.
  induction a as [|x a IH].
  - simpl. now rewrite Ascii.eqb_refl.
  - cbn [append Str.split]. rewrite IH.
    destruct (Ascii.eqb x c); [reflexivity|].
    pose proof (split_not_nil c a).
    destruct (Str.split c a); [contradiction | reflexivity].
Qed.

(** X7. Before any fetch, [record_scenario_metadata] raises and leaves
    the object as it was: [RuntimeError] when the URL is [None],
    [ValueError] when no segment of the URL between slashes is
    "publicDatasets", and [IndexError] when that segment is the last one of
    the URL. *)
Theorem X7_url_errors :
  forall (BeautifulSoup : option string -> result Soup)
         (session_get : string -> result (option string))
         (self : CTU_Dataset) (group : string),
    record_scenario_metadata BeautifulSoup session_get self group None
      = (self, Raise (RuntimeError "url must not be None")) /\
    (forall url,
       str_in "publicDatasets" (Str.split "/" url) = false ->
       record_scenario_metadata BeautifulSoup session_get self group (Some url)
       = (self, Raise ValueError)) /\
    (forall base,
       str_in "publicDatasets" (Str.split "/" base) = false ->
       record_scenario_metadata BeautifulSoup session_get self group
         (Some (base ++ "/publicDatasets"))
       = (self, Raise IndexError)).
Proof.
  intros BeautifulSoup session_get self group. repeat split.
  - intros url Habs. unfold record_scenario_metadata, scenario_name.
    now rewrite (list_index_absent _ _ Habs).
  - intros base Habs. unfold record_scenario_metadata.
    enough (H : scenario_name (base ++ "/publicDatasets") = Raise IndexError)
      by now rewrite H.
    unfold scenario_name.
    change (base ++ "/publicDatasets") with (base ++ String "/" "publicDatasets").
    rewrite split_app.
    change (Str.split "/" "publicDatasets") with ["publicDatasets"].
    destruct (list_index_last _ _ Habs) as [-> Hn]. cbn [bind].
    unfold list_getitem. now rewrite Hn.
Qed.

Lemma X7_url_errors_witness :
  record_scenario_metadata text_only (fun _ => Raise FetchError)
    (dataset __COLUMNS__ 60 10 store_query) "ctu13"
    (Some "https://mcfp.felk.cvut.cz/datasets/CTU-13-1/")
  = (dataset __COLUMNS__ 60 10 store_query, Raise ValueError) /\
  record_scenario_metadata text_only (fun _ => Raise FetchError)
    (dataset __COLUMNS__ 60 10 store_query) "ctu13"
    (Some ("https://mcfp.felk.cvut.cz" ++ "/publicDatasets"))
  = (dataset __COLUMNS__ 60 10 store_query, Raise IndexError).
Proof.
  pose proof (X7_url_errors text_only (fun _ => Raise FetchError)
                (dataset __COLUMNS__ 60 10 store_query) "ctu13")
    as (_ & Hvalue & Hindex).
  split.
  - apply Hvalue. reflexivity.
  - apply Hindex. reflexivity.
Defined.

(** X8. When the fetch of the scenario page raises, the exception leaves
    [record_scenario_metadata] and the record of the scenario, new in the
    store, holds GROUP and URL and nothing else: it has no [_SUCCESS], so
    [get_metadata] does not take it for a failed record. *)
Theorem X8_fetch_failure :
  forall (BeautifulSoup : option string -> result Soup)
         (session_get : string -> result (option string))
         (self : CTU_Dataset) (group url name : string) (e : exn),
    scenario_name url = Ok name ->
    dict_get name (scenarios self) = None ->
    session_get url = Raise e ->
    let r := [("GROUP", VStr group); ("URL", VStr url)] in
    record_scenario_metadata BeautifulSoup session_get self group (Some url)
      = (set_scenarios self (scenarios self ++ [(name, r)])%list, Raise e) /\
    skip_failed r = false.
Proof.
  intros BeautifulSoup session_get self group url name e Hname Hnew Hget r.
  split; [|reflexivity].
  unfold record_scenario_metadata. rewrite Hname, Hnew.
  unfold scrape, fetch_scenario, fetch, mbind, setitem, lift. rewrite Hget.
  cbn [fst snd dict_set String.eqb Ascii.eqb Bool.eqb].
  rewrite JsonFacts.dict_set_fresh; [reflexivity|].
  unfold dict_contains in *. clear -Hnew.
  induction (scenarios self) as [|[k v] s IH]; simpl in *; [reflexivity|].
  destruct (String.eqb name k); [discriminate|]. now apply IH.
Qed.

Lemma X8_fetch_failure_witness :
  let r := [("GROUP", VStr "ctu13"); ("URL", VStr scenario_url)] in
  record_scenario_metadata text_only (fun _ => Raise FetchError)
    (dataset __COLUMNS__ 60 10 []) "ctu13" (Some scenario_url)
    = (set_scenarios (dataset __COLUMNS__ 60 10 []) [("CTU-13-1", r)],
       Raise FetchError) /\
  skip_failed r = false.
Proof.
  apply (X8_fetch_failure text_only (fun _ => Raise FetchError)
           (dataset __COLUMNS__ 60 10 []) "ctu13" scenario_url "CTU-13-1"
           FetchError); reflexivity.
Defined.

(** X9. The scan of the netflow listing takes the first anchor whose href
    ends in ".binetflow": with only anchors of other hrefs before it,
    BINETFLOW becomes the directory followed by that href and what comes
    after is not looked at. An anchor without href met before such a one
    raises [KeyError], which nothing catches. A listing of anchors with
    other hrefs changes nothing. *)
Theorem X9_first_binetflow :
  forall (before after : list Tag) (r : record),
    (forall item, In item before ->
       exists h, dict_get "href" (tag_attrs item) = Some h /\
                 Str.endswith ".binetflow" h = false) ->
    (forall item href,
       dict_get "href" (tag_attrs item) = Some href ->
       Str.endswith ".binetflow" href = true ->
       scan_subpage (before ++ item :: after) r =
       (dict_set "BINETFLOW" (VStr (__NETFLOW_DATA_DIR__ ++ href)) r, Ok tt)) /\
    (forall item,
       dict_get "href" (tag_attrs item) = None ->
       scan_subpage (before ++ item :: after) r = (r, Raise (KeyError "href"))) /\
    scan_subpage before r = (r, Ok tt).
Proof.
  intros before after r Hbefore.
  induction before as [|b before IH].
  - repeat split.
    + intros item href Hh He. cbn [app scan_subpage].
      unfold mbind, lift, tag_getitem, dict_getitem. rewrite Hh. cbn.
      now rewrite He.
    + intros item Hh. cbn [app scan_subpage].
      unfold mbind, lift, tag_getitem, dict_getitem. now rewrite Hh.
  - destruct (Hbefore b (or_introl eq_refl)) as (h & Hh & He).
    destruct IH as (IH1 & IH2 & IH3).
    { intros item Hin. apply Hbefore. now right. }
    assert (Hstep : forall l, scan_subpage (b :: l) r = scan_subpage l r).
    { intros l. cbn [scan_subpage].
      unfold mbind, lift, tag_getitem, dict_getitem. rewrite Hh. cbn.
      now rewrite He. }
    repeat split.
    + intros item href Hh' He'. cbn [app]. rewrite Hstep. now apply IH1.
    + intros item Hh'. cbn [app]. rewrite Hstep. now apply IH2.
    + now rewrite Hstep.
Qed.

Lemma X9_first_binetflow_witness :
  scan_subpage
    ([anchor "../"; anchor "README.html"] ++
     anchor "capture.binetflow" :: [bare_anchor; anchor "other.binetflow"]) []
  = ([("BINETFLOW",
       VStr "detailed-bidirectional-flow-labels/capture.binetflow")], Ok tt) /\
  scan_subpage
    ([anchor "../"; anchor "README.html"] ++
     bare_anchor :: [anchor "capture.binetflow"]) []
  = ([], Raise (KeyError "href")).
Proof.
  assert (Hbefore : forall item, In item [anchor "../"; anchor "README.html"] ->
            exists h, dict_get "href" (tag_attrs item) = Some h /\
                      Str.endswith ".binetflow" h = false).
  { intros item [<- | [<- | []]]; eexists; split; reflexivity. }
  split.
  - apply (proj1 (X9_first_binetflow [anchor "../"; anchor "README.html"]
                    [bare_anchor; anchor "other.binetflow"] [] Hbefore)
             (anchor "capture.binetflow") "capture.binetflow");
      reflexivity.
  - apply (proj1 (proj2 (X9_first_binetflow
                           [anchor "../"; anchor "README.html"]
                           [anchor "capture.binetflow"] [] Hbefore))
             bare_anchor).
    reflexivity.
Defined.

Lemma never_raises_for_each {X} (body : X -> M unit) (l : list X) :
  (forall x, In x l -> never_raises (body x)) -> never_raises (for_each body l).
Proof.
  induction l as [|x l IH]; intros Hb r; [reflexivity|].
  cbn [for_each]. unfold mbind.
  pose proof (Hb x (or_introl eq_refl) r) as Hx.
  destruct (body x r) as [r' res]. cbn [snd] in Hx. subst res.
  apply IH. intros y Hy. apply Hb. now right.
Qed.

Lemma never_raises_scan_label cols line : never_raises (scan_label cols line).
Proof.
  intros r. unfold scan_label.
  destruct (Str.split ":" line) as [|_k [|_v [|? ?]]]; try reflexivity.
  now destruct (str_in _ cols).
Qed.

Lemma never_raises_scan_anchor cols item : never_raises (scan_anchor cols item).
Proof.
  intros r. unfold scan_anchor.
  destruct (Str.startswith "?" _); [reflexivity|].
  destruct (String.eqb _ ""); [reflexivity|].
  now destruct (str_in _ cols).
Qed.

(** X10. When the scenario page is fetched and parsed and no line of its
    text names the netflow directory, [record_scenario_metadata] returns
    without raising, whatever the lines and the anchors of the page are:
    neither the label scan nor the anchor scan raises. *)
Theorem X10_scan_without_listing_returns :
  forall (BeautifulSoup : option string -> result Soup)
         (session_get : string -> result (option string))
         (self : CTU_Dataset) (group url name : string)
         (page : option string) (soup : Soup),
    scenario_name url = Ok name ->
    session_get url = Ok page ->
    BeautifulSoup page = Ok soup ->
    forallb (fun line => negb (Str.contains __NETFLOW_DATA_DIR__ line))
      (Str.splitlines (soup_text soup)) = true ->
    snd (record_scenario_metadata BeautifulSoup session_get self group
           (Some url)) = Ok tt.
Proof.
  intros BeautifulSoup session_get self group url name page soup
    Hname Hget Hsoup Hlines.
  unfold record_scenario_metadata. rewrite Hname.
  set (r0 := match dict_get name (scenarios self) with
             | Some r => r
             | None => []
             end).
  enough (H : snd (scrape BeautifulSoup session_get self group url r0) = Ok tt).
  { destruct (scrape BeautifulSoup session_get self group url r0) as [r res].
    exact H. }
  unfold scrape, fetch_scenario, fetch, setitem, lift.
  unfold mbind at 1 2 3 4 5 6. rewrite Hget, Hsoup.
  unfold mbind.
  set (r1 := dict_set "_SUCCESS" _ _).
  pose proof (never_raises_for_each
                (scan_line BeautifulSoup session_get self url)
                (Str.splitlines (soup_text soup))) as Hl.
  assert (Hline : forall line, In line (Str.splitlines (soup_text soup)) ->
            never_raises (scan_line BeautifulSoup session_get self url line)).
  { intros line Hin r. rewrite forallb_forall in Hlines.
    specialize (Hlines line Hin). apply negb_true_iff in Hlines.
    unfold scan_line, mbind, ret. rewrite Hlines.
    destruct (_ && _); [apply never_raises_scan_label | reflexivity]. }
  specialize (Hl Hline r1).
  destruct (for_each (scan_line BeautifulSoup session_get self url)
              (Str.splitlines (soup_text soup)) r1) as [r2 res2].
  cbn [snd] in Hl. subst res2.
  apply never_raises_for_each. intros item _.
  apply never_raises_scan_anchor.
Qed.

Lemma X10_scan_without_listing_returns_witness :
  snd (record_scenario_metadata text_only (fun _ => Ok (Some not_found_page))
         (dataset __COLUMNS__ 60 10 store_query) "ctu13" (Some scenario_url))
  = Ok tt.
Proof.
  apply (X10_scan_without_listing_returns text_only
           (fun _ => Ok (Some not_found_page))
           (dataset __COLUMNS__ 60 10 store_query) "ctu13" scenario_url
           "CTU-13-1" (Some not_found_page)
           {| soup_text := not_found_page; soup_tags := [] |});
    reflexivity.
Defined.

(** ** Discovered URLs name a scenario *)

Lemma prefix_decompose p s :
  String.prefix p s = true -> exists b, s = p ++ b.
Proof.
  revert s. induction p as [|a p IH]; intros s H.
  - exists s. reflexivity.
  - destruct s as [|c s]; [discriminate|]. simpl in H.
    destruct (Ascii.ascii_dec a c) as [->|]; [|discriminate].
    destruct (IH s H) as [b ->]. exists b. reflexivity.
Qed.

Lemma contains_decompose sub s :
  Str.contains sub s = true -> exists a b, s = a ++ sub ++ b.
Proof.
  induction s as [|c s IH]; cbn [Str.contains]; intros H.
  - rewrite orb_false_r in H. destruct (prefix_decompose _ _ H) as [b Hb].
    exists "", b. exact Hb.
  - apply orb_true_iff in H as [H | H].
    + destruct (prefix_decompose _ _ H) as [b Hb]. exists "", b. exact Hb.
    + destruct (IH H) as (a & b & ->). exists (String c a), b. reflexivity.
Qed.

Lemma list_index_followed x l1 l2 :
  l2 <> [] ->
  exists i n, list_index x (l1 ++ x :: l2) = Ok i /\
              nth_error (l1 ++ x :: l2) (i + 1) = Some n.
Proof.
  intros Hl2. induction l1 as [|y l1 IH]; cbn [app list_index].
  - rewrite String.eqb_refl. destruct l2 as [|n l2]; [contradiction|].
    exists 0%nat, n. auto.
  - destruct IH as (i & n & Hi & Hn).
    destruct (String.eqb y x) eqn:E.
    + destruct l1 as [|z l1]; cbn [app]; exists 0%nat; eexists; split;
        reflexivity.
    + rewrite Hi. exists (S i), n. auto.
Qed.

Lemma marked_url_has_name u :
  Str.contains "/publicDatasets/" u = true ->
  exists name, scenario_name u = Ok name.
Proof.
  intros H. destruct (contains_decompose _ _ H) as (a & b & ->).
  unfold scenario_name.
  change (a ++ "/publicDatasets/" ++ b)
    with (a ++ String "/" ("publicDatasets" ++ String "/" b)).
  rewrite split_app, split_app.
  change (Str.split "/" "publicDatasets") with ["publicDatasets"].
  cbn [app].
  destruct (list_index_followed "publicDatasets" (Str.split "/" a)
              (Str.split "/" b) (split_not_nil "/" b)) as (i & n & Hi & Hn).
  rewrite Hi. cbn [bind]. unfold list_getitem. rewrite Hn. now exists n.
Qed.

(** X11. Every URL that [get_scenarios] returns names a scenario: the
    derivation of the name in [record_scenario_metadata] finds the segment
    "publicDatasets" and a segment after it, and raises neither
    [ValueError] nor [IndexError]. *)
Theorem X11_discovered_urls_have_a_name :
  forall (BeautifulSoup : option string -> result Soup)
         (requests_get : string -> result string)
         (group url : string) (found : list string),
    get_scenarios BeautifulSoup requests_get group url = Ok found ->
    forall u, In u found -> exists name, scenario_name u = Ok name.
Proof.
  intros BeautifulSoup requests_get group url found H u Hin.
  unfold get_scenarios in H.
  destruct (requests_get url) as [text|]; cbn [bind] in H; [|discriminate].
  destruct (BeautifulSoup (Some text)) as [soup|]; cbn [bind] in H;
    [|discriminate].
  injection H as <-. rewrite scan_landing_filter in Hin.
  apply filter_In in Hin as [_ Hin]. unfold scenario_href in Hin.
  apply andb_true_iff in Hin as [Hin _]. apply andb_true_iff in Hin as [Hin _].
  now apply marked_url_has_name.
Qed.

Lemma X11_discovered_urls_have_a_name_witness :
  exists name, scenario_name "/publicDatasets/CTU-13-1/" = Ok name.
Proof.
  apply (X11_discovered_urls_have_a_name (fun _ => Ok landing_example)
           (fun _ => Ok "page") "ctu13"
           "https://www.stratosphereips.org/datasets-ctu13"
           ["/publicDatasets/CTU-13-1/"]).
  - reflexivity.
  - simpl. auto.
Defined.

(** ** Reading, writing and loading the cache *)

Lemma cache_expired_fresh self content mtime now :
  content <> "" -> (now - mtime <= week)%Z ->
  cache_expired self (Some {| st_content := content; st_mtime := mtime |})
    now None
  = (Some {| st_content := content; st_mtime := mtime |}, false).
Proof.
  intros Hne Hage. unfold cache_expired. cbn [os_stat]. unfold st_size.
  cbn [st_content st_mtime]. destruct content as [|a s]; [congruence|].
  cbn [String.length Nat.eqb]. unfold week in Hage.
  apply Z.leb_le in Hage. now rewrite Hage.
Qed.

(** X12. [read_cache] can change the object and still raise. With no
    cache file it returns false and changes nothing, and so it does with
    a cache file that is not empty and older than a week, which it leaves
    in place. On a file that is not empty and at most a week old, whose
    content loads as an object: without the key "scenarios" it raises
    [KeyError] and the object is unchanged; with a store under
    "scenarios" and without the key "columns" the store of the object is
    replaced and then [KeyError] is raised for "columns"; with both it
    returns true, the object holding the store and the columns of the
    file. *)
Theorem X12_read_cache_outcomes :
  forall (json_loads : string -> result json) (self : CTU_Dataset) (now : Z),
    read_cache json_loads self None now = Some (self, None, Ok false) /\
    (forall f, st_content f <> "" -> (now - st_mtime f > week)%Z ->
       read_cache json_loads self (Some f) now
       = Some (self, Some f, Ok false)) /\
    (forall f members,
       st_content f <> "" -> (now - st_mtime f <= week)%Z ->
       json_loads (st_content f) = Ok (JObj members) ->
       (dict_get "scenarios" members = None ->
        read_cache json_loads self (Some f) now
        = Some (self, Some f, Raise (KeyError "scenarios"))) /\
       (forall js s,
          dict_get "scenarios" members = Some js ->
          store_of_json js = Some s ->
          (dict_get "columns" members = None ->
           read_cache json_loads self (Some f) now
           = Some (set_scenarios self s, Some f,
                   Raise (KeyError "columns"))) /\
          (forall jc c,
             dict_get "columns" members = Some jc ->
             columns_of_json jc = Some c ->
             read_cache json_loads self (Some f) now
             = Some (set_columns (set_scenarios self s) c, Some f,
                     Ok true)))).
Proof.
  intros json_loads self now. split; [reflexivity|]. split.
  - intros f Hne Hold. unfold read_cache, cache_expired. cbn [os_stat].
    unfold st_size. destruct (st_content f) as [|a s] eqn:E; [congruence|].
    cbn [String.length Nat.eqb]. unfold week in Hold.
    destruct (now - st_mtime f <=? __CACHE_TIMEOUT__)%Z eqn:El.
    + apply Z.leb_le in El. lia.
    + reflexivity.
  - intros [content mtime] members Hne Hage Hload.
    cbn [st_content st_mtime] in *.
    assert (Hread : read_cache json_loads self
                      (Some {| st_content := content; st_mtime := mtime |}) now
                    = match load_cache json_loads self
                              (Some {| st_content := content;
                                       st_mtime := mtime |}) with
                      | Some (self', res) =>
                          Some (self',
                                Some {| st_content := content;
                                        st_mtime := mtime |},
                                bind res (fun _ => Ok true))
                      | None => None
                      end).
    { unfold read_cache. now rewrite (cache_expired_fresh _ _ _ _ Hne Hage). }
    rewrite Hread. unfold load_cache. cbn [os_stat st_content].
    rewrite Hload. unfold json_getitem, dict_getitem. split.
    + intros Hs. now rewrite Hs.
    + intros js s Hs Hjs. rewrite Hs, Hjs. split.
      * intros Hc. now rewrite Hc.
      * intros jc c Hc Hjc. now rewrite Hc, Hjc.
Qed.

Lemma X12_read_cache_outcomes_witness :
  read_cache Json.loads cache_example
    (Some {| st_content := cache_without_columns; st_mtime := 1000 |}) 1060
  = Some (set_scenarios cache_example [],
          Some {| st_content := cache_without_columns; st_mtime := 1000 |},
          Raise (KeyError "columns")).
Proof.
  destruct (X12_read_cache_outcomes Json.loads cache_example 1060)
    as (_ & _ & Hfresh).
  destruct (Hfresh {| st_content := cache_without_columns; st_mtime := 1000 |}
              [("scenarios", JObj [])])
    as (_ & Hstore); [discriminate | discriminate | reflexivity |].
  destruct (Hstore (JObj []) []) as (Hnone & _);
    [reflexivity | reflexivity |].
  apply Hnone. reflexivity.
Defined.

(** X13. [read_cache] called on a cache file of zero bytes that is at
    most a week old raises [FileNotFoundError]: [cache_expired] deletes
    the file and reports it not expired, and the [open] that follows
    finds no file. The object is unchanged. *)
Theorem X13_read_cache_empty_file :
  forall (json_loads : string -> result json) (self : CTU_Dataset)
         (mtime now : Z),
    (now - mtime <= week)%Z ->
    read_cache json_loads self (Some {| st_content := ""; st_mtime := mtime |})
      now = Some (self, None, Raise FileNotFoundError).
Proof.
  intros json_loads self mtime now Hage.
  unfold read_cache, cache_expired. unfold week in Hage.
  apply Z.leb_le in Hage.
  cbn [os_stat st_size st_content st_mtime String.length Nat.eqb
       delete_cache fst].
  rewrite Hage. reflexivity.
Qed.

Lemma X13_read_cache_empty_file_witness :
  read_cache Json.loads cache_example
    (Some {| st_content := ""; st_mtime := 1000 |}) 1060
  = Some (cache_example, None, Raise FileNotFoundError).
Proof.
  apply (X13_read_cache_empty_file Json.loads cache_example 1000 1060).
  discriminate.
Defined.

Lemma load_cache_written json_dumps json_loads writer reader t :
  (forall v, json_wf v = true -> json_loads (json_dumps v) = Ok v) ->
  store_wf (scenarios writer) = true ->
  load_cache json_loads reader (fst (write_cache json_dumps writer None t))
  = Some (set_columns (set_scenarios reader (scenarios writer))
            (columns writer), Ok tt).
Proof.
  intros Hrt Hwf. unfold load_cache, write_cache.
  cbn [fst os_stat st_content].
  rewrite (Hrt _ (json_wf_cache writer Hwf)).
  unfold json_getitem, dict_getitem. simpl dict_get. cbv beta iota.
  rewrite store_of_json_of_store. cbv beta iota zeta.
  now rewrite columns_of_json_of_columns.
Qed.

(** X14. With a [json] whose [loads] reads back what [dumps] writes: a
    [load_ctu_metadata] that finds the cache file written by [write_cache]
    at most a week before, on an object that does not ignore the cache,
    harvests nothing, whatever the groups of the object and whatever the
    site would answer: it returns with the scenarios and the columns of
    the object that wrote the cache, and leaves the file as it is. *)
Theorem X14_load_reads_a_fresh_cache :
  forall (json_dumps : json -> string) (json_loads : string -> result json)
         (run_tasks : CTU_Dataset -> string -> list string -> CTU_Dataset)
         (BeautifulSoup : option string -> result Soup)
         (requests_get : string -> result string),
    (forall v, json_wf v = true -> json_loads (json_dumps v) = Ok v) ->
    (forall v, json_dumps v <> "") ->
    forall (writer reader : CTU_Dataset) (fs : filesystem) (t_write t_read : Z),
      store_wf (scenarios writer) = true ->
      ignore_cache reader = false ->
      (t_read - t_write <= week)%Z ->
      let fs' := fst (write_cache json_dumps writer fs t_write) in
      load_ctu_metadata json_dumps json_loads run_tasks BeautifulSoup
        requests_get reader fs' t_read
      = Some (set_columns (set_scenarios reader (scenarios writer))
                (columns writer), fs', Ok tt).
Proof.
  intros json_dumps json_loads run_tasks BeautifulSoup requests_get Hrt Hne
    writer reader fs t_write t_read Hwf Hic Hage fs'.
  assert (Efs : fs' = fst (write_cache json_dumps writer None t_write))
    by reflexivity.
  assert (Hce : cache_expired reader fs' t_read None = (fs', false)).
  { unfold fs', write_cache. cbn [fst].
    apply cache_expired_fresh; [apply Hne | exact Hage]. }
  unfold load_ctu_metadata. rewrite Hce, Hic. cbn [negb andb].
  unfold read_cache. rewrite Hce. cbn [negb].
  rewrite Efs, (load_cache_written _ _ _ _ _ Hrt Hwf). reflexivity.
Qed.

Lemma X14_load_reads_a_fresh_cache_witness :
  let fs' := fst (write_cache Json.dumps cache_example None 1000) in
  load_ctu_metadata Json.dumps Json.loads (fun self _ _ => self) text_only
    (fun _ => Raise FetchError) (dataset ["SCENARIO"] 60 10 []) fs' 5000
  = Some (set_columns (set_scenarios (dataset ["SCENARIO"] 60 10 [])
                         (scenarios cache_example)) (columns cache_example),
          fs', Ok tt).
Proof.
  apply (X14_load_reads_a_fresh_cache Json.dumps Json.loads
           (fun self _ _ => self) text_only (fun _ => Raise FetchError)
           JsonFacts.loads_dumps JsonFacts.dumps_not_empty
           cache_example (dataset ["SCENARIO"] 60 10 []) None 1000 5000);
    reflexivity || discriminate.
Defined.






(** ** The semaphore over a whole harvest *)

Module GateRuns.
Import Gate.

Lemma run_app page_lines s1 s2 s :
  run page_lines (s1 ++ s2) s = run page_lines s2 (run page_lines s1 s).
Proof. unfold run. apply fold_left_app. Qed.

Lemma run_slots page_lines schedule s :
  (holders (run page_lines schedule s) + sem (run page_lines schedule s)
   = holders s + sem s)%nat.
Proof.
  revert s. induction schedule as [|i schedule IH]; intros s; [reflexivity|].
  change (run page_lines (i :: schedule) s)
    with (run page_lines schedule (step page_lines i s)).
  rewrite IH. apply GateFacts.step_slots.
Qed.

Lemma no_holder_among_finished l :
  forallb finished l = true -> filter gated l = [].
Proof.
  induction l as [|t l IH]; simpl; intros H; [reflexivity|].
  apply andb_true_iff in H as [Ht Hl]. destruct t; try discriminate.
  now apply IH.
Qed.

(** X16. At every point of every schedule of a harvest the fetches of
    [fetch_scenario] in flight are at most [semaphore_limit]: they and the
    free slots of the semaphore add up to the limit, and once every task
    has finished every slot is free again, also when fetches raised. *)
Theorem X16_gated_fetches_within_limit :
  forall (page_lines : string -> option (list string)) (self : CTU_Dataset)
         (scenarios : list string) (schedule : list nat),
    let s := run page_lines schedule (start self scenarios) in
    (holders s <= semaphore_limit self)%nat /\
    (holders s + sem s = semaphore_limit self)%nat /\
    (forallb finished (tasks s) = true -> sem s = semaphore_limit self).
Proof.
  intros page_lines self scenarios schedule s.
  pose proof (GateFacts.gated_fetches_bounded page_lines self scenarios
                schedule) as H.
  cbv zeta in H. fold s in H. repeat split; [lia | exact H |].
  intros Hfin. unfold holders in H.
  rewrite (no_holder_among_finished _ Hfin) in H. exact H.
Qed.

Lemma X16_gated_fetches_within_limit_witness :
  let s := run (fun _ => None) [0; 0; 1; 1]%nat
             (start (dataset __COLUMNS__ 60 1 []) ["u/a/"; "u/b/"]) in
  (holders s <= 1)%nat /\ (holders s + sem s = 1)%nat /\ sem s = 1%nat.
Proof.
  pose proof (X16_gated_fetches_within_limit (fun _ => None)
                (dataset __COLUMNS__ 60 1 []) ["u/a/"; "u/b/"]
                [0; 0; 1; 1]%nat) as (H1 & H2 & H3).
  intros s. split; [exact H1 | split; [exact H2 | apply H3; reflexivity]].
Defined.

Lemma unfinished_task l :
  forallb finished l = false ->
  exists i t, nth_error l i = Some t /\ finished t = false.
Proof.
  induction l as [|t l IH]; simpl; intros H; [discriminate|].
  destruct (finished t) eqn:Ht.
  - destruct (IH H) as (i & t' & Hn & Hf). now exists (S i), t'.
  - now exists 0%nat, t.
Qed.

Lemma some_holder l :
  filter gated l <> [] -> exists i url, nth_error l i = Some (FetchingPage url).
Proof.
  induction l as [|t l IH]; simpl; intros H; [contradiction|].
  destruct t as [u|u|u ls|u ls|]; simpl in H;
    try (destruct (IH H) as (i & url & Hn); now exists (S i), url).
  now exists 0%nat, u.
Qed.

Lemma resumable page_lines n t :
  finished t = false -> (forall url, t <> Waiting url) ->
  resume page_lines n t <> None.
Proof.
  destruct t as [u|u|u [|line ls]|u ls|]; simpl; intros Hf Hw;
    try discriminate.
  - now destruct (Hw u).
  - destruct (page_lines u); discriminate.
  - destruct (Str.contains __NETFLOW_DATA_DIR__ line); discriminate.
  - destruct (page_lines _); discriminate.
Qed.

Lemma some_task_resumable page_lines s :
  (1 <= holders s + sem s)%nat ->
  forallb finished (tasks s) = false ->
  exists i t, nth_error (tasks s) i = Some t /\
              resume page_lines (sem s) t <> None.
Proof.
  intros Hpos Hunf.
  destruct (unfinished_task _ Hunf) as (i & t & Hn & Hf).
  destruct t as [u|u|u ls|u ls|] eqn:Et; try discriminate.
  - destruct (sem s) as [|n] eqn:Es.
    + unfold holders in Hpos.
      assert (Hh : filter gated (tasks s) <> []).
      { destruct (filter gated (tasks s)); [simpl in Hpos; lia | discriminate]. }
      destruct (some_holder _ Hh) as (j & url & Hj).
      exists j, (FetchingPage url). split; [assumption|].
      simpl. destruct (page_lines url); discriminate.
    + exists i, (Waiting u). split; [assumption | discriminate].
  - exists i, t. subst t. split; [assumption|].
    apply resumable; [reflexivity | discriminate].
  - exists i, t. subst t. split; [assumption|].
    apply resumable; [reflexivity | discriminate].
  - exists i, t. subst t. split; [assumption|].
    apply resumable; [reflexivity | discriminate].
Qed.

(** X17. A harvest under a semaphore of one slot at least cannot block:
    at every point of every schedule, either every task has finished or
    some task can be resumed; a task waiting at a full semaphore has a
    fetch in flight ahead of it, whose end frees a slot. *)
Theorem X17_no_deadlock :
  forall (page_lines : string -> option (list string)) (self : CTU_Dataset)
         (scenarios : list string) (schedule : list nat),
    (1 <= semaphore_limit self)%nat ->
    let s := run page_lines schedule (start self scenarios) in
    forallb finished (tasks s) = true \/
    exists i t, nth_error (tasks s) i = Some t /\
                resume page_lines (sem s) t <> None.
Proof.
  intros page_lines self scenarios schedule Hlimit s.
  destruct (forallb finished (tasks s)) eqn:Hf; [now left | right].
  apply some_task_resumable; [|exact Hf].
  pose proof (GateFacts.gated_fetches_bounded page_lines self scenarios
                schedule) as H.
  cbv zeta in H. fold s in H. lia.
Qed.

Lemma X17_no_deadlock_witness :
  let s := run (fun _ => Some [listing_line]) [0; 1; 1]%nat
             (start (dataset __COLUMNS__ 60 1 []) ["u/a/"; "u/b/"]) in
  forallb finished (tasks s) = true \/
  exists i t, nth_error (tasks s) i = Some t /\
              resume (fun _ => Some [listing_line]) (sem s) t <> None.
Proof.
  apply (X17_no_deadlock (fun _ => Some [listing_line])
           (dataset __COLUMNS__ 60 1 []) ["u/a/"; "u/b/"] [0; 1; 1]%nat).
  simpl. lia.
Defined.

Lemma resume_work page_lines n t n' t' :
  resume page_lines n t = Some (n', t') ->
  (work page_lines t' < work page_lines t)%nat.
Proof.
  destruct t as [u|u|u [|line ls]|u ls|]; simpl; intros H.
  - destruct n; [discriminate|]. injection H as <- <-. simpl. lia.
  - destruct (page_lines u); injection H as <- <-; simpl; lia.
  - injection H as <- <-. simpl. lia.
  - destruct (Str.contains __NETFLOW_DATA_DIR__ line);
      injection H as <- <-; simpl; lia.
  - destruct (page_lines _); injection H as <- <-; simpl; lia.
  - discriminate.
Qed.

Lemma work_set_nth page_lines t' : forall l i t,
  nth_error l i = Some t ->
  (list_sum (map (work page_lines) (set_nth i t' l)) + work page_lines t =
   list_sum (map (work page_lines) l) + work page_lines t')%nat.
Proof.
  induction l as [|x l IH]; intros [|i] t H; simpl in H; try discriminate.
  - injection H as ->. cbn [set_nth map list_sum fold_right]. lia.
  - cbn [set_nth map list_sum fold_right]. specialize (IH i t H).
    unfold list_sum in IH. lia.
Qed.

Lemma step_work page_lines i t s :
  nth_error (tasks s) i = Some t ->
  resume page_lines (sem s) t <> None ->
  (total_work page_lines (step page_lines i s) < total_work page_lines s)%nat.
Proof.
  intros Hn Hr. unfold step. rewrite Hn.
  destruct (resume page_lines (sem s) t) as [[n' t']|] eqn:E; [|congruence].
  unfold total_work. cbn [tasks].
  pose proof (work_set_nth page_lines t' _ _ _ Hn).
  pose proof (resume_work _ _ _ _ _ E). lia.
Qed.

Lemma completion page_lines : forall n s,
  (total_work page_lines s <= n)%nat ->
  (1 <= holders s + sem s)%nat ->
  exists more, forallb finished (tasks (run page_lines more s)) = true.
Proof.
  induction n as [|n IH]; intros s Hw Hpos.
  - exists []. cbn [run fold_left].
    destruct (forallb finished (tasks s)) eqn:Hf; [reflexivity|].
    destruct (some_task_resumable page_lines s Hpos Hf) as (i & t & Hn & Hr).
    pose proof (step_work _ _ _ _ Hn Hr). lia.
  - destruct (forallb finished (tasks s)) eqn:Hf; [now exists []|].
    destruct (some_task_resumable page_lines s Hpos Hf) as (i & t & Hn & Hr).
    pose proof (step_work _ _ _ _ Hn Hr) as Hlt.
    destruct (IH (step page_lines i s)) as [more Hmore]; [lia | |].
    + rewrite GateFacts.step_slots. exact Hpos.
    + exists (i :: more). exact Hmore.
Qed.

(** X18. A harvest under a semaphore of one slot at least can always be
    brought to its end: whatever has been scheduled so far, some further
    schedule leaves every task finished, whether its fetches return or
    raise. *)
Theorem X18_harvest_can_complete :
  forall (page_lines : string -> option (list string)) (self : CTU_Dataset)
         (scenarios : list string) (schedule : list nat),
    (1 <= semaphore_limit self)%nat ->
    exists more,
      forallb finished
        (tasks (run page_lines (schedule ++ more) (start self scenarios)))
      = true.
Proof.
  intros page_lines self scenarios schedule Hlimit.
  destruct (completion page_lines
              (total_work page_lines
                 (run page_lines schedule (start self scenarios)))
              (run page_lines schedule (start self scenarios)))
    as [more Hmore]; [lia | |].
  - pose proof (GateFacts.gated_fetches_bounded page_lines self scenarios
                  schedule) as H.
    cbv zeta in H. lia.
  - exists more. now rewrite run_app.
Qed.

Lemma X18_harvest_can_complete_witness :
  exists more,
    forallb finished
      (tasks (run (fun _ => Some [listing_line]) ([0; 1; 1]%nat ++ more)
                (start (dataset __COLUMNS__ 60 1 []) ["u/a/"; "u/b/"])))
    = true.
Proof.
  apply (X18_harvest_can_complete (fun _ => Some [listing_line])
           (dataset __COLUMNS__ 60 1 []) ["u/a/"; "u/b/"] [0; 1; 1]%nat).
  simpl. lia.
Defined.

End GateRuns.

(** ** The constructor and the listing command *)

Lemma validate_groups_known gs :
  forallb (fun g => str_in g __GROUPS__) gs = true -> validate_groups gs = Ok tt.
Proof.
  induction gs as [|g gs IH]; intros H; [reflexivity|].
  cbn [forallb] in H. apply andb_true_iff in H as [Hg Hgs].
  cbn [validate_groups]. rewrite Hg. cbn [negb]. now apply IH.
Qed.

Lemma validate_groups_first_unknown before g after :
  forallb (fun g => str_in g __GROUPS__) before = true ->
  str_in g __GROUPS__ = false ->
  validate_groups (before ++ g :: after) = Raise (unknown_group g).
Proof.
  intros Hb Hg. induction before as [|b before IH]; cbn [app validate_groups].
  - now rewrite Hg.
  - cbn [forallb] in Hb. apply andb_true_iff in Hb as [Hb1 Hb2].
    rewrite Hb1. cbn [negb]. now apply IH.
Qed.

Lemma init_known groups_arg columns_arg ct sl ic :
  forallb (fun g => str_in g __GROUPS__) groups_arg = true ->
  (0 <= sl)%Z ->
  __init__ groups_arg columns_arg ct sl ic =
  Ok {| groups := groups_arg; columns := columns_arg;
        cache_timeout := ct; semaphore_limit := Z.to_nat sl;
        ignore_cache := ic; scenarios := [] |}.
Proof.
  intros H Hsl. unfold __init__.
  rewrite (validate_groups_known _ H). cbn [bind].
  apply Z.ltb_ge in Hsl. rewrite Hsl.
  assert (Hall : str_in "all" groups_arg = false).
  { destruct (str_in "all" groups_arg) eqn:E; [|reflexivity].
    apply str_in_In in E. rewrite forallb_forall in H.
    specialize (H _ E). discriminate. }
  now rewrite Hall.
Qed.

(** X19. The constructor returns exactly when every group given is one of
    ctu13, mixed, normal, malware and the semaphore limit is not
    negative: it then keeps the groups, the columns and the other
    settings as given and starts with an empty store. With a group that
    is not one of the four it raises [RuntimeError] with the message that
    names the first such group of the list, whatever the limit. With
    known groups and a negative limit it raises [ValueError], where the
    semaphore is built. *)
Theorem X19_constructor :
  forall (columns_arg : list string) (ct : Z) (sl : Z) (ic : bool),
    (forall groups_arg,
       forallb (fun g => str_in g __GROUPS__) groups_arg = true ->
       (0 <= sl)%Z ->
       __init__ groups_arg columns_arg ct sl ic =
       Ok {| groups := groups_arg; columns := columns_arg;
             cache_timeout := ct; semaphore_limit := Z.to_nat sl;
             ignore_cache := ic; scenarios := [] |}) /\
    (forall groups_arg,
       forallb (fun g => str_in g __GROUPS__) groups_arg = true ->
       (sl < 0)%Z ->
       __init__ groups_arg columns_arg ct sl ic = Raise ValueError) /\
    (forall before g after,
       forallb (fun g => str_in g __GROUPS__) before = true ->
       str_in g __GROUPS__ = false ->
       __init__ (before ++ g :: after) columns_arg ct sl ic =
       Raise (unknown_group g)).
Proof.
  intros columns_arg ct sl ic. split; [|split].
  - intros groups_arg H Hsl. now apply init_known.
  - intros groups_arg H Hsl. unfold __init__.
    rewrite (validate_groups_known _ H). cbn [bind].
    apply Z.ltb_lt in Hsl. now rewrite Hsl.
  - intros before g after Hb Hg. unfold __init__.
    now rewrite (validate_groups_first_unknown _ _ _ Hb Hg).
Qed.

Lemma X19_constructor_witness :
  __init__ ["malware"; "ctu13"] ["MD5"] 60 3 true =
    Ok {| groups := ["malware"; "ctu13"]; columns := ["MD5"];
          cache_timeout := 60; semaphore_limit := 3;
          ignore_cache := true; scenarios := [] |} /\
  __init__ ["malware"; "ctu13"] ["MD5"] 60 (-1) true = Raise ValueError /\
  __init__ (["mixed"] ++ "botnets" :: ["all"]) ["MD5"] 60 (-1) true =
    Raise (unknown_group "botnets").
Proof.
  pose proof (X19_constructor ["MD5"] 60 3 true) as (Hok & _ & _).
  pose proof (X19_constructor ["MD5"] 60 (-1) true) as (_ & Hneg & Hbad).
  split; [|split].
  - apply (Hok ["malware"; "ctu13"]); [reflexivity | discriminate].
  - apply Hneg; reflexivity.
  - apply Hbad; reflexivity.
Defined.

(** X20. For groups taken from what the parser of the listing command
    allows (the four groups and "all"), the object of the command is
    built without error: over the four groups when "all" is among them,
    where the constructor alone would raise, and over the groups given
    otherwise; its columns are the default ones. *)
Theorem X20_listing_command_groups :
  forall (groups_arg : list string) (ignore_cache_arg : bool),
    forallb (fun g => str_in g (__GROUPS__ ++ ["all"])%list) groups_arg = true ->
    CTUList_dataset groups_arg ignore_cache_arg =
    Ok {| groups := if str_in "all" groups_arg then __GROUPS__ else groups_arg;
          columns := __COLUMNS__;
          cache_timeout := __CACHE_TIMEOUT__;
          semaphore_limit := __SEMAPHORE_LIMIT__;
          ignore_cache := ignore_cache_arg; scenarios := [] |}.
Proof.
  intros groups_arg ignore_cache_arg H. unfold CTUList_dataset.
  destruct (str_in "all" groups_arg) eqn:Hall.
  - reflexivity.
  - rewrite init_known; [reflexivity | | discriminate].
    rewrite forallb_forall in H |- *.
    intros g Hin. specialize (H g Hin). rewrite JsonFacts.str_in_app in H.
    apply orb_true_iff in H as [H | H]; [exact H|].
    cbn [str_in existsb] in H. rewrite orb_false_r in H.
    apply String.eqb_eq in H. subst g.
    apply str_in_In in Hin. congruence.
Qed.

Lemma X20_listing_command_groups_witness :
  CTUList_dataset ["ctu13"; "all"] false =
  Ok {| groups := __GROUPS__; columns := __COLUMNS__;
        cache_timeout := __CACHE_TIMEOUT__;
        semaphore_limit := __SEMAPHORE_LIMIT__;
        ignore_cache := false; scenarios := [] |}.
Proof.
  apply (X20_listing_command_groups ["ctu13"; "all"] false). reflexivity.
Defined.

(** X21. Whatever the listing command returns, its rows fit its header:
    every row has as many entries as there are columns, also when the
    columns come from a cache written with other columns than the
    default ones. *)
Theorem X21_listing_rows_fit_header :
  forall (json_dumps : json -> string) (json_loads : string -> result json)
         (run_tasks : CTU_Dataset -> string -> list string -> CTU_Dataset)
         (BeautifulSoup : option string -> result Soup)
         (requests_get : string -> result string)
         (groups_arg : list string) (ignore_cache_arg : bool)
         (name_includes hash : option string) (fs fs' : filesystem) (now : Z)
         (cols : list string) (data : list (list pyval)),
    CTUList_take_action json_dumps json_loads run_tasks BeautifulSoup
      requests_get groups_arg ignore_cache_arg name_includes hash fs now
    = Some (fs', Ok (cols, data)) ->
    forall row, In row data -> length row = length cols.
Proof.
  intros json_dumps json_loads run_tasks BeautifulSoup requests_get
    groups_arg ignore_cache_arg name_includes hash fs fs' now cols data H
    row Hin.
  unfold CTUList_take_action in H.
  destruct (__init__ _ __COLUMNS__ __CACHE_TIMEOUT__ _ ignore_cache_arg)
    as [ctu|]; [|discriminate].
  destruct (load_ctu_metadata json_dumps json_loads run_tasks BeautifulSoup
              requests_get ctu fs now) as [[[ctu' fs1] res]|];
    [|discriminate].
  destruct res as [[]|]; [|discriminate].
  injection H as _ H.
  destruct (get_metadata ctu' _ name_includes hash) as [rows|] eqn:Hg;
    cbn [bind] in H; [|discriminate].
  injection H as <- <-.
  destruct (get_metadata_loop_rows _ _ _ _ _ _ _ Hg row Hin)
    as [[] | (scenario & attributes & _ & Hv)].
  destruct (visit_row _ _ _ _ _ _ _ Hv) as (url & _ & ->).
  apply length_map.
Qed.

Lemma X21_listing_rows_fit_header_witness :
  length [VStr "CTU-13-1"; VStr "ctu13"; VStr scenario_url; VNone; VNone;
          VStr "deadbeef"; VNone; VNone; VNone; VNone; VNone]
  = length __COLUMNS__.
Proof.
  apply (X21_listing_rows_fit_header Json.dumps Json.loads
           (fun self _ _ => self) text_only (fun _ => Raise FetchError)
           ["ctu13"] false None None
           (fst (write_cache Json.dumps cache_example None 1000))
           (fst (write_cache Json.dumps cache_example None 1000)) 2000
           __COLUMNS__
           [[VStr "CTU-13-1"; VStr "ctu13"; VStr scenario_url; VNone; VNone;
             VStr "deadbeef"; VNone; VNone; VNone; VNone; VNone]]).
  - reflexivity.
  - left. reflexivity.
Defined.

(** ** The netflow download *)

Example download_sample :
  download_ctu_netflow (fun _ => None) (fun _ => Raise ValueError)
    (fun _ => Ok 10%Z) None ["tcp"]
    [netflow_header ++ LF; netflow_tcp ++ LF; netflow_udp ++ LF]
  = ([ "StartTime,Dur,Proto,SrcAddr,Sport,DstAddr,Dport,State,TotPkts,TotBytes,SrcBytes,Label" ++ LF;
       "2011/08/10 09:46:53.047277,3550.18,tcp,10.0.0.1,1025,10.0.0.2,80,S_RA,4,276,156,Background" ++ LF ],
     Ok tt).
Proof. reflexivity. Qed.

Section NetflowFacts.

Variable epoch : string -> option string.
Variable int16 : string -> result Z.
Variable int10 : string -> result Z.

Lemma write_records_bound protocols m n :
  int10 m = Ok n ->
  forall records count written,
    length written = count ->
    (Z.of_nat count <= Z.max n 0)%Z ->
    (length (fst (write_records epoch int16 int10 protocols (Some m)
                    records count written)) <= Z.to_nat n + 1)%nat.
Proof.
  intros Hm. induction records as [|record rest IH]; intros count written Hl Hc.
  - cbn [write_records fst]. lia.
  - cbn [write_records].
    destruct (if (0 <? count)%nat
              then data_fields epoch int16 protocols
                     (Str.split "," (Str.strip record))
              else Ok (Some (Str.split "," (Str.strip record))))
      as [[fields|]|e].
    + destruct (select fields use_columns) as [columns|e];
        [|cbn [fst]; lia].
      rewrite Hm.
      destruct (n <? Z.of_nat (S count))%Z eqn:En.
      * cbn [fst]. rewrite length_app. cbn [length]. lia.
      * apply Z.ltb_ge in En. apply IH.
        -- rewrite length_app. cbn [length]. lia.
        -- lia.
    + now apply IH.
    + cbn [fst]. lia.
Qed.

Lemma data_fields_skip protocols fields proto :
  protocols <> [] ->
  nth_error fields 2 = Some proto -> str_in proto protocols = false ->
  data_fields epoch int16 protocols fields = Ok None.
Proof.
  intros Hp Hn Hin. unfold data_fields, list_getitem.
  destruct protocols as [|p ps]; [contradiction|].
  cbn [length Nat.ltb Nat.leb orb]. rewrite Hn. cbn [bind].
  now rewrite Hin.
Qed.


Lemma write_records_filter protocols maxlines :
  protocols <> [] ->
  forall records count written,
    (0 < count)%nat ->
    write_records epoch int16 int10 protocols maxlines records count written =
    write_records epoch int16 int10 protocols maxlines
      (filter (fun record =>
                 match nth_error (Str.split "," (Str.strip record)) 2 with
                 | Some proto => str_in proto protocols
                 | None => true
                 end) records) count written.
Proof.
  intros Hp. induction records as [|record rest IH]; intros count written Hc;
    [reflexivity|].
  cbn [filter].
  destruct (nth_error (Str.split "," (Str.strip record)) 2) as [proto|] eqn:Hn.
  - destruct (str_in proto protocols) eqn:Hin.
    + cbn [write_records].
      destruct (if (0 <? count)%nat then _ else _) as [[fields|]|e];
        [|now apply IH | reflexivity].
      destruct (select fields use_columns) as [columns|e]; [|reflexivity].
      destruct maxlines as [m|]; [|apply IH; lia].
      destruct (int10 m) as [n|e]; [|reflexivity].
      destruct (n <? Z.of_nat (S count))%Z; [reflexivity | apply IH; lia].
    + cbn [write_records]. apply Nat.ltb_lt in Hc. rewrite Hc.
      rewrite (data_fields_skip _ _ _ Hp Hn Hin). apply Nat.ltb_lt in Hc.
      now apply IH.
  - cbn [write_records].
    destruct (if (0 <? count)%nat then _ else _) as [[fields|]|e];
      [|now apply IH | reflexivity].
    destruct (select fields use_columns) as [columns|e]; [|reflexivity].
    destruct maxlines as [m|]; [|apply IH; lia].
    destruct (int10 m) as [n|e]; [|reflexivity].
    destruct (n <? Z.of_nat (S count))%Z; [reflexivity | apply IH; lia].
Qed.

Lemma filter_map_commute {A B} (f : B -> bool) (g : A -> B) (l : list A) :
  filter f (map g l) = map g (filter (fun x => f (g x)) l).
Proof.
  induction l as [|x l IH]; simpl; [reflexivity|].
  destruct (f (g x)); simpl; now rewrite IH.
Qed.

Lemma download_filter maxlines protocols header rest :
  protocols <> [] ->
  download_ctu_netflow epoch int16 int10 maxlines protocols (header :: rest) =
  download_ctu_netflow epoch int16 int10 maxlines protocols
    (header :: filter (passes protocols) rest).
Proof.
  intros Hp. unfold download_ctu_netflow. cbn [map write_records Nat.ltb Nat.leb].
  destruct (select (Str.split "," (Str.strip (Str.strip header))) use_columns)
    as [columns|e]; [|reflexivity].
  assert (Hrest : forall written,
            write_records epoch int16 int10 protocols maxlines
              (map Str.strip rest) 1 written =
            write_records epoch int16 int10 protocols maxlines
              (map Str.strip (filter (passes protocols) rest)) 1 written).
  { intros written. rewrite (write_records_filter _ maxlines Hp); [|lia].
    now rewrite filter_map_commute. }
  destruct maxlines as [m|]; [|apply Hrest].
  destruct (int10 m) as [n|e]; [|reflexivity].
  destruct (n <? Z.of_nat 1)%Z; [reflexivity | apply Hrest].
Qed.

End NetflowFacts.

(** X22. With [maxlines] given, [download_ctu_netflow] writes at most
    [int(maxlines) + 1] records, the header being one of them, and one
    record at most when [int(maxlines)] is negative; this also bounds what
    is in the file when the loop raises. *)
Theorem X22_download_maxlines :
  forall (epoch : string -> option string) (int16 int10 : string -> result Z)
         (m : string) (n : Z) (protocols lines : list string),
    int10 m = Ok n ->
    (length (fst (download_ctu_netflow epoch int16 int10 (Some m) protocols
                    lines)) <= Z.to_nat n + 1)%nat.
Proof.
  intros epoch int16 int10 m n protocols lines Hm.
  unfold download_ctu_netflow.
  apply (write_records_bound epoch int16 int10 protocols m n Hm);
    [reflexivity | cbn; lia].
Qed.

Lemma X22_download_maxlines_witness :
  (length (fst (download_ctu_netflow (fun _ => None) (fun _ => Raise ValueError)
                  (fun _ => Ok 1%Z) (Some "1") []
                  [netflow_header; netflow_tcp; netflow_udp]))
   <= Z.to_nat 1 + 1)%nat.
Proof.
  apply (X22_download_maxlines (fun _ => None) (fun _ => Raise ValueError)
           (fun _ => Ok 1%Z) "1" 1 [] [netflow_header; netflow_tcp; netflow_udp]).
  reflexivity.
Defined.

(** X23. With a list of protocols that is not empty, a line after the
    first whose third field is not literally one of the protocols leaves
    no trace: the download writes what it would write without that line,
    which is not counted against [maxlines] either. This holds for the
    default ['any'] as for any other list, so that with the default only
    flows whose protocol field reads "any" are written; and when no line
    after the first passes, the download is that of the header alone. *)
Theorem X23_download_protocol_filter :
  forall (epoch : string -> option string) (int16 int10 : string -> result Z)
         (maxlines : option string) (protocols : list string)
         (header : string) (rest : list string),
    protocols <> [] ->
    download_ctu_netflow epoch int16 int10 maxlines protocols (header :: rest) =
    download_ctu_netflow epoch int16 int10 maxlines protocols
      (header :: filter (passes protocols) rest) /\
    (forallb (fun line => negb (passes protocols line)) rest = true ->
     download_ctu_netflow epoch int16 int10 maxlines protocols (header :: rest) =
     download_ctu_netflow epoch int16 int10 maxlines protocols [header]).
Proof.
  intros epoch int16 int10 maxlines protocols header rest Hp. split.
  - now apply download_filter.
  - intros Hnone. rewrite (download_filter _ _ _ _ _ _ _ Hp).
    assert (E : filter (passes protocols) rest = []).
    { induction rest as [|line rest IH]; [reflexivity|].
      cbn [forallb] in Hnone. apply andb_true_iff in Hnone as [H1 H2].
      cbn [filter]. apply negb_true_iff in H1. rewrite H1. now apply IH. }
    now rewrite E.
Qed.

Lemma X23_download_protocol_filter_witness :
  download_ctu_netflow (fun _ => None) (fun _ => Raise ValueError)
    (fun _ => Raise ValueError) None ["any"]
    (netflow_header :: [netflow_tcp; netflow_udp])
  = download_ctu_netflow (fun _ => None) (fun _ => Raise ValueError)
      (fun _ => Raise ValueError) None ["any"] [netflow_header].
Proof.
  apply (proj2 (X23_download_protocol_filter (fun _ => None)
                  (fun _ => Raise ValueError) (fun _ => Raise ValueError)
                  None ["any"] netflow_header [netflow_tcp; netflow_udp]
                  ltac:(discriminate))).
  reflexivity.
Defined.



(** ** More on the page scan *)




(** X26. On a cache file that is not empty, [cache_expired] never touches
    the file and answers by the age alone: not expired exactly when the
    age is at most the timeout passed, the bound included, or at most a
    week when none is passed. *)
Theorem X26_cache_expired_by_age :
  forall (self : CTU_Dataset) (f : file) (now : Z) (timeout : option Z),
    st_content f <> "" ->
    let limit := match timeout with Some t => t | None => week end in
    fst (cache_expired self (Some f) now timeout) = Some f /\
    (snd (cache_expired self (Some f) now timeout) = false <->
     (now - st_mtime f <= limit)%Z).
Proof.
  intros self f now timeout Hne limit. unfold cache_expired. cbn [os_stat].
  unfold st_size. destruct (st_content f) as [|a s]; [congruence|].
  cbn [String.length Nat.eqb fst snd]. split; [reflexivity|].
  fold limit.
  replace (match timeout with Some t => t | None => __CACHE_TIMEOUT__ end)
    with limit by reflexivity.
  destruct (now - st_mtime f <=? limit)%Z eqn:E.
  - apply Z.leb_le in E. tauto.
  - apply Z.leb_gt in E. split; [discriminate | lia].
Qed.

Lemma X26_cache_expired_by_age_witness :
  fst (cache_expired cache_example
         (Some {| st_content := "{}"; st_mtime := 1000 |}) 1060 (Some 60%Z))
  = Some {| st_content := "{}"; st_mtime := 1000 |} /\
  (snd (cache_expired cache_example
          (Some {| st_content := "{}"; st_mtime := 1000 |}) 1060 (Some 60%Z))
   = false <-> (1060 - 1000 <= 60)%Z).
Proof.
  apply (X26_cache_expired_by_age cache_example
           {| st_content := "{}"; st_mtime := 1000 |} 1060 (Some 60%Z)).
  discriminate.
Defined.

Lemma scan_anchor_column cols item r :
  scan_anchor cols item r =
  (match anchor_column cols item with
   | Some (k, href) => dict_set k (VStr href) r
   | None => r
   end, Ok tt).
Proof.
  unfold scan_anchor, anchor_column, tag_getitem, dict_getitem.
  destruct (dict_get "href" (tag_attrs item)) as [href|]; [|reflexivity].
  destruct (Str.startswith "?" href); [reflexivity|]. cbn [orb].
  destruct (String.eqb (Str.upper (Str.drop1 (splitext_ext href))) "");
    [reflexivity|]. cbn [orb].
  now destruct (str_in (Str.upper (Str.drop1 (splitext_ext href))) cols).
Qed.

Lemma for_each_app_ok {X} (body : X -> M unit) l1 l2 r :
  (forall x, never_raises (body x)) ->
  for_each body (l1 ++ l2) r = for_each body l2 (fst (for_each body l1 r)).
Proof.
  intros Hb. revert r. induction l1 as [|x l1 IH]; intros r; [reflexivity|].
  cbn [app for_each]. unfold mbind. pose proof (Hb x r) as Hx.
  destruct (body x r) as [r' res]. cbn [snd] in Hx. subst res. apply IH.
Qed.

(** X27. Among the anchors of a scenario page the last one of an
    extension wins: after the anchor scan, the column a link fills holds
    that link's href when no later anchor fills the same column. The scan
    itself never raises. *)
Theorem X27_last_anchor_wins :
  forall (cols : list string) (before after : list Tag) (item : Tag)
         (k href : string) (r : record),
    anchor_column cols item = Some (k, href) ->
    (forall later, In later after ->
       forall href', anchor_column cols later <> Some (k, href')) ->
    let out := for_each (scan_anchor cols) (before ++ item :: after) r in
    snd out = Ok tt /\ dict_get k (fst out) = Some (VStr href).
Proof.
  intros cols before after item k href r Hitem Hlater out. subst out. split.
  - apply never_raises_for_each. intros x _. apply never_raises_scan_anchor.
  - rewrite for_each_app_ok by apply never_raises_scan_anchor.
    generalize (fst (for_each (scan_anchor cols) before r)). intros r1.
    cbn [for_each]. unfold mbind. rewrite scan_anchor_column, Hitem.
    assert (Hkeep : forall r2, dict_get k r2 = Some (VStr href) ->
              dict_get k (fst (for_each (scan_anchor cols) after r2))
              = Some (VStr href)).
    { clear Hitem. induction after as [|a after IH]; intros r2 H2; [exact H2|].
      cbn [for_each]. unfold mbind. rewrite scan_anchor_column.
      apply IH; [intros l Hl; apply Hlater; now right|].
      destruct (anchor_column cols a) as [[k' h']|] eqn:Ea; [|exact H2].
      rewrite dict_get_set_other; [exact H2|].
      apply String.eqb_neq. intros ->.
      exact (Hlater a (or_introl eq_refl) h' Ea). }
    apply Hkeep. apply dict_get_set_same.
Qed.

Lemma X27_last_anchor_wins_witness :
  let out := for_each (scan_anchor __COLUMNS__)
               ([anchor "old/capture.pcap"] ++
                anchor "new/capture.PCAP" :: [anchor "README.html"]) [] in
  snd out = Ok tt /\ dict_get "PCAP" (fst out) = Some (VStr "new/capture.PCAP").
Proof.
  apply (X27_last_anchor_wins __COLUMNS__ [anchor "old/capture.pcap"]
           [anchor "README.html"] (anchor "new/capture.PCAP")
           "PCAP" "new/capture.PCAP" []).
  - reflexivity.
  - intros later [<- | []] href'. discriminate.
Defined.
